(** * Device savings API: a shallow embedding of the server and its properties

    The server loads two CSV files (devices, savings) once, then answers
    [GET /api/savings?deviceId=&startDateTime=&endDateTime=] by filtering the
    savings records of one device to an inclusive datetime range and summing
    carbon and fuel, overall and for the calendar month of the end date.

    The embedding follows the JavaScript source function by function:
    - JavaScript numbers are IEEE-754 binary64 values, here [PrimFloat.float];
      [parseInt], [parseFloat], [String.prototype.trim], [||] and [===] are
      written out after ECMA-262;
    - moment / moment-timezone is a third-party library: its entry points used
      by the server form the interface [MomentLib]; a concrete, executable
      instance for fixed-offset zones is given for evaluation on examples;
    - an exception escaping the request handler is a result of its own
      ([Thrown]), next to a response sent with [res.status(..).json(..)].

    The page (public/app.js) is covered by the month grouping of its chart
    and by its preset ranges.

    Strings are sequences of code units below 256, one [ascii] for each code
    unit (so U+00A0 is the character of code 160); the CSV rows are taken after
    the CSV reader has split them, each row carrying every column of its
    header. Console output is not part of the model. *)

From Stdlib Require Import ZArith Floats String Ascii List Bool Lia Sorted.
Import ListNotations.

Local Open Scope string_scope.
Local Open Scope Z_scope.

(** ** JavaScript builtins used by the server *)

Module JS.

Definition number := float.

(** The Number for a mathematical integer, rounded to nearest, ties to even. *)
Definition of_Z (z : Z) : number :=
  SF2Prim (binary_normalize prec emax z 0 false).

(** ToBoolean on a Number: [+0], [-0] and [NaN] are falsy. *)
Definition truthy (x : number) : bool := negb (is_zero x || is_nan x).

(** [x || 0] on a Number. *)
Definition or_zero (x : number) : number := if truthy x then x else PrimFloat.zero.

(** [x === y] on two Numbers. *)
Definition strict_eq (x y : number) : bool := PrimFloat.eqb x y.

(** ToBoolean on a value that is a string or [undefined]: only a non-empty
    string is truthy. *)
Definition truthy_str (o : option string) : bool :=
  match o with
  | Some (String _ _) => true
  | _ => false
  end.

Definition code (c : ascii) : Z := Z.of_N (N_of_ascii c).

(** The WhiteSpace and LineTerminator code units below 256: TAB, LF, VT, FF,
    CR, SP and the no-break space U+00A0.  The other white space of ECMA-262
    (U+1680, U+2000 to U+200A, U+2028, U+2029, U+202F, U+205F, U+3000 and
    U+FEFF) is made of code units above 255, which are not values of the
    character type used here. *)
Definition is_white_space (c : ascii) : bool :=
  let n := code c in
  (n =? 9) || (n =? 10) || (n =? 11) || (n =? 12) || (n =? 13) || (n =? 32)
  || (n =? 160).

Definition is_digit (c : ascii) : bool := (48 <=? code c) && (code c <=? 57).

Fixpoint trim_start (s : string) : string :=
  match s with
  | String c s' => if is_white_space c then trim_start s' else s
  | EmptyString => EmptyString
  end.

Fixpoint trim_end (s : string) : string :=
  match s with
  | EmptyString => EmptyString
  | String c s' =>
      match trim_end s' with
      | EmptyString => if is_white_space c then EmptyString else String c EmptyString
      | t => String c t
      end
  end.

(** [s.trim()] *)
Definition trim (s : string) : string := trim_end (trim_start s).

Definition dquote : ascii := "034"%char.

Fixpoint strip_last_quote (s : string) : string :=
  match s with
  | EmptyString => EmptyString
  | String c EmptyString => if Ascii.eqb c dquote then EmptyString else s
  | String c s' => String c (strip_last_quote s')
  end.

(** [s.replace(/^"|"$/g, "")]: one double quote is removed at the start, and
    one at the end of what remains. *)
Definition strip_quotes (s : string) : string :=
  match s with
  | String c s' => if Ascii.eqb c dquote then strip_last_quote s' else strip_last_quote s
  | EmptyString => EmptyString
  end.

(** The value of a code unit as a digit (up to radix 16). *)
Definition digit_value (c : ascii) : option Z :=
  let n := code c in
  if (48 <=? n) && (n <=? 57) then Some (n - 48)
  else if (97 <=? n) && (n <=? 102) then Some (n - 87)
  else if (65 <=? n) && (n <=? 70) then Some (n - 55)
  else None.

(** The digits of the longest prefix of [s] made of radix-[R] digits, and the
    rest of [s]. *)
Fixpoint span_digits (R : Z) (s : string) : list Z * string :=
  match s with
  | EmptyString => ([], EmptyString)
  | String c s' =>
      match digit_value c with
      | Some v =>
          if v <? R then let '(ds, rest) := span_digits R s' in (v :: ds, rest)
          else ([], s)
      | None => ([], s)
      end
  end.

Definition digits_value (R : Z) (ds : list Z) : Z :=
  fold_left (fun acc d => acc * R + d) ds 0.

(** A leading sign is read and removed. *)
Definition read_sign (s : string) : bool * string :=
  match s with
  | String c r =>
      if Ascii.eqb c "-" then (true, r)
      else if Ascii.eqb c "+" then (false, r)
      else (false, s)
  | EmptyString => (false, s)
  end.

(** The string starts with [0x] or [0X]. *)
Definition hex_prefix (s : string) : bool :=
  match s with
  | String c (String x _) => Ascii.eqb c "0" && (Ascii.eqb x "x" || Ascii.eqb x "X")
  | _ => false
  end.

(** A leading [0x] or [0X] selects radix 16 and is removed. *)
Definition read_radix (s : string) : Z * string :=
  match s with
  | String c (String x r) =>
      if Ascii.eqb c "0" && (Ascii.eqb x "x" || Ascii.eqb x "X") then (16, r) else (10, s)
  | _ => (10, s)
  end.

(** [parseInt(string)] with no radix argument (ECMA-262, 19.2.5). *)
Definition parseInt (input : string) : number :=
  let '(neg, s1) := read_sign (trim_start input) in
  let '(R, s2) := read_radix s1 in
  match fst (span_digits R s2) with
  | [] => nan
  | ds =>
      let mathInt := digits_value R ds in
      if mathInt =? 0 then (if neg then PrimFloat.neg_zero else PrimFloat.zero)
      else of_Z (if neg then - mathInt else mathInt)
  end.

(** The Number nearest to [(-1)^neg * D * 10^E], for [0 <= D].  For a negative
    exponent the quotient is taken with 64 bits and a sticky bit, which is
    enough for the rounding of [binary_round] to be the rounding of the exact
    value. *)
Definition of_decimal (neg : bool) (D E : Z) : number :=
  if D <=? 0 then (if neg then PrimFloat.neg_zero else PrimFloat.zero)
  else if 0 <=? E then SF2Prim (binary_round prec emax neg (Z.to_pos (D * 10 ^ E)) 0)
  else
    let T := 10 ^ (- E) in
    let k := Z.max 0 (Z.log2 T - Z.log2 D + 64) in
    let q := (D * 2 ^ k) / T in
    let sticky := if (D * 2 ^ k) mod T =? 0 then 0 else 1 in
    SF2Prim (binary_round prec emax neg (Z.to_pos (2 * q + sticky)) (- (k + 1))).

(** The exponent part [e[+-]digits] at the start of [s], 0 when there is
    none. *)
Definition read_exponent (s : string) : Z :=
  match s with
  | String c r =>
      if Ascii.eqb c "e" || Ascii.eqb c "E" then
        let '(eneg, r') := read_sign r in
        match fst (span_digits 10 r') with
        | [] => 0
        | ds => if eneg then - digits_value 10 ds else digits_value 10 ds
        end
      else 0
  | EmptyString => 0
  end.

(** [parseFloat(string)] (ECMA-262, 19.2.4): the value of the longest prefix
    of the trimmed input that is a StrDecimalLiteral, [NaN] when there is no
    such prefix. *)
Definition parseFloat (input : string) : number :=
  let '(neg, s1) := read_sign (trim_start input) in
  if String.prefix "Infinity" s1 then (if neg then neg_infinity else infinity)
  else
    let '(ip, s2) := span_digits 10 s1 in
    let '(fp, s3) :=
      match s2 with
      | String "." r => span_digits 10 r
      | _ => ([], s2)
      end in
    match (ip ++ fp)%list with
    | [] => nan
    | ds => of_decimal neg (digits_value 10 ds) (read_exponent s3 - Z.of_nat (length fp))
    end.

End JS.

(** ** The moment / moment-timezone interface

    A moment object is an instant (milliseconds since the epoch, absent when
    the moment is invalid) together with the mode it is displayed in: the
    server's local time for [moment(..)], UTC for [moment.utc(..)], a named
    zone for [moment.tz(.., zone)]. *)

Inductive mode : Type :=
| Local
| Utc
| Zone (name : string).

Record moment : Type := { m_value : option Z; m_mode : mode }.

(** The library entry points the server calls.  Each parser gives the instant
    of the moment it builds, [None] when [isValid()] is false. *)
Class MomentLib : Type := {
  (** [moment.tz.zone(name)] is not null *)
  tz_zone : string -> bool;
  (** [moment(input, moment.ISO_8601, true)] *)
  parse_iso_strict : string -> option Z;
  (** [moment(input)] *)
  parse_default : string -> option Z;
  (** [moment.utc(input)] *)
  parse_utc : string -> option Z;
  (** [moment.tz(input, zone)] *)
  parse_tz : string -> string -> option Z;
  (** the instant [startOf("month")] moves a valid moment to *)
  month_start : mode -> Z -> Z;
  (** [format("YYYY-MM")] of a valid moment *)
  year_month : mode -> Z -> string
}.

Section Moment.
Context {M : MomentLib}.

Definition moment_iso_strict (input : string) : moment :=
  {| m_value := parse_iso_strict input; m_mode := Local |}.

Definition moment_default (input : string) : moment :=
  {| m_value := parse_default input; m_mode := Local |}.

Definition moment_utc (input : string) : moment :=
  {| m_value := parse_utc input; m_mode := Utc |}.

Definition moment_tz (input zone : string) : moment :=
  {| m_value := parse_tz input zone; m_mode := Zone zone |}.

Definition isValid (m : moment) : bool :=
  match m_value m with
  | Some _ => true
  | None => false
  end.

(** [m.isBefore(other)]: false when either moment is invalid. *)
Definition isBefore (m other : moment) : bool :=
  match m_value m, m_value other with
  | Some t, Some u => t <? u
  | _, _ => false
  end.

Definition isAfter (m other : moment) : bool :=
  match m_value m, m_value other with
  | Some t, Some u => u <? t
  | _, _ => false
  end.

Definition isSame (m other : moment) : bool :=
  match m_value m, m_value other with
  | Some t, Some u => t =? u
  | _, _ => false
  end.

(** [m.isBetween(from, to, null, "[]")] *)
Definition isBetween (m from to : moment) : bool :=
  if negb (isValid m && isValid from && isValid to) then false
  else negb (isBefore m from) && negb (isAfter m to).

(** [m.isSameOrBefore(other)] *)
Definition isSameOrBefore (m other : moment) : bool :=
  isSame m other || isBefore m other.

(** [m.startOf("month")]; the call changes [m] itself, so the caller goes on
    with the returned moment. *)
Definition startOf_month (m : moment) : moment :=
  match m_value m with
  | Some t => {| m_value := Some (month_start (m_mode m) t); m_mode := m_mode m |}
  | None => m
  end.

(** [m.format("YYYY-MM")] *)
Definition format_YYYY_MM (m : moment) : string :=
  match m_value m with
  | Some t => year_month (m_mode m) t
  | None => "Invalid date"
  end.

End Moment.

(** ** Data model and loading *)

Record Device : Type := { id : JS.number; name : string; timezone : string }.

Record SavingsRecord : Type := {
  device_id : JS.number;
  device_timestamp : string;
  carbon_saved : JS.number;
  fueld_saved : JS.number
}.

(** A row of devices.csv and of device-saving.csv, as text. *)
Record DeviceRow : Type := { row_id : string; row_name : string; row_timezone : string }.

Record SavingsRow : Type := {
  row_device_id : string;
  row_device_timestamp : string;
  row_carbon_saved : string;
  row_fueld_saved : string
}.

Record Store : Type := { devices : list Device; savingsData : list SavingsRecord }.

(** [value.trim().replace(/^"|"$/g, "")], the start of both transforms. *)
Definition clean (value : string) : string := JS.strip_quotes (JS.trim value).

Section Load.
Context {M : MomentLib}.

(** [moment.tz.zone(tz) ? tz : "Asia/Kolkata"] *)
Definition resolveTimezone (tz : string) : string :=
  if tz_zone tz then tz else "Asia/Kolkata".

Definition loadDevice (row : DeviceRow) : Device :=
  {| id := JS.parseInt (clean (row_id row));
     name := clean (row_name row);
     timezone := resolveTimezone (clean (row_timezone row)) |}.

(** The savings transform on the columns [carbon_saved] and [fueld_saved]. *)
Definition transform_saved (value : string) : JS.number :=
  JS.or_zero (JS.parseFloat (clean value)).

Definition loadSaving (row : SavingsRow) : SavingsRecord :=
  {| device_id := JS.parseInt (clean (row_device_id row));
     device_timestamp := clean (row_device_timestamp row);
     carbon_saved := transform_saved (row_carbon_saved row);
     fueld_saved := transform_saved (row_fueld_saved row) |}.

(** [loadData]: [None] stands for a data directory or file that cannot be
    read, which leaves both collections empty. *)
Definition loadData (files : option (list DeviceRow * list SavingsRow)) : Store :=
  match files with
  | Some (devicesCsv, savingsCsv) =>
      {| devices := map loadDevice devicesCsv;
         savingsData := map loadSaving savingsCsv |}
  | None => {| devices := []; savingsData := [] |}
  end.

End Load.

(** ** The handler of GET /api/savings *)

#[warning="-register-all"]
Inductive jsval : Type :=
| VNum (x : JS.number)
| VStr (s : string)
| VArr (items : list jsval)
| VObj (fields : list (string * jsval)).

(** What a run of the handler ends in: a response, or an exception that
    leaves the handler. *)
Inductive Result : Type :=
| Sent (status : Z) (body : jsval)
| Thrown (error : string).

Inductive completion (A : Type) : Type :=
| Normal (a : A)
| Throw (error : string).
Arguments Normal {A} a.
Arguments Throw {A} error.

(** [Array.prototype.filter] with a callback that may throw: the first
    exception ends the traversal. *)
Fixpoint filter_c {A : Type} (f : A -> completion bool) (l : list A) : completion (list A) :=
  match l with
  | [] => Normal []
  | x :: l' =>
      match f x with
      | Throw e => Throw e
      | Normal b =>
          match filter_c f l' with
          | Throw e => Throw e
          | Normal r => Normal (if b then x :: r else r)
          end
      end
  end.

Record Query : Type := {
  deviceId : option string;
  startDateTime : option string;
  endDateTime : option string
}.

(** A returned record: the stored record and one more field, [timestamp]. *)
Record Returned : Type := { source :> SavingsRecord; timestamp : string }.

(** [{...item, timestamp: item.device_timestamp}] *)
Definition annotate (item : SavingsRecord) : Returned :=
  {| source := item; timestamp := device_timestamp item |}.

Record Totals : Type := {
  totalCarbon : JS.number;
  totalFuel : JS.number;
  monthlyCarbon : JS.number;
  monthlyFuel : JS.number;
  lastMonth : string
}.

Definition json_of_returned (r : Returned) : jsval :=
  VObj [("device_id", VNum (device_id r));
        ("device_timestamp", VStr (device_timestamp r));
        ("carbon_saved", VNum (carbon_saved r));
        ("fueld_saved", VNum (fueld_saved r));
        ("timestamp", VStr (timestamp r))].

Definition json_of_totals (t : Totals) : jsval :=
  VObj [("totalCarbon", VNum (totalCarbon t));
        ("totalFuel", VNum (totalFuel t));
        ("monthlyCarbon", VNum (monthlyCarbon t));
        ("monthlyFuel", VNum (monthlyFuel t));
        ("lastMonth", VStr (lastMonth t))].

Definition json_ok (data : list Returned) (t : Totals) : jsval :=
  VObj [("data", VArr (map json_of_returned data)); ("totals", json_of_totals t)].

Definition json_error (message : string) : jsval := VObj [("error", VStr message)].

Definition const_assignment : string := "TypeError: Assignment to constant variable.".

Section Handler.
Context {M : MomentLib}.

(** The cascade of the first filter: strict ISO-8601, then the library's
    default parse, then the parse as UTC. *)
Definition normalize (device_timestamp : string) : moment :=
  let itemDate := moment_iso_strict device_timestamp in
  let itemDate :=
    if negb (isValid itemDate) then moment_default device_timestamp else itemDate in
  let itemDate :=
    if negb (isValid itemDate) then moment_utc device_timestamp else itemDate in
  itemDate.

(** The callback of the first filter.  The parsers of the interface do not
    throw, so the [catch] branch of the source is never taken. *)
Definition in_range (deviceId : string) (start end_ : moment) (item : SavingsRecord) : bool :=
  if negb (JS.strict_eq (device_id item) (JS.parseInt deviceId)) then false
  else isBetween (normalize (device_timestamp item)) start end_.

Definition filteredData (savings : list SavingsRecord) (deviceId : string)
    (start end_ : moment) : list Returned :=
  map annotate (filter (in_range deviceId start end_) savings).

(** [items.reduce((sum, item) => sum + (item.field || 0), 0)] *)
Definition reduce_sum (field : Returned -> JS.number) (items : list Returned) : JS.number :=
  fold_left (fun sum item => (sum + JS.or_zero (field item))%float) items PrimFloat.zero.

(** The callback of the second filter.  [itemDate] is declared [const]: the
    assignment in the branch taken when the strict parse is invalid throws.
    Otherwise [startOf("month")] moves [itemDate] itself, and it is the moved
    moment that [isSameOrBefore] compares with [end]. *)
Definition in_last_month (lastMonthStr : string) (end_ : moment) (item : Returned)
    : completion bool :=
  let itemDate := moment_iso_strict (device_timestamp item) in
  if negb (isValid itemDate) then Throw const_assignment
  else
    let itemDate := startOf_month itemDate in
    let itemMonth := format_YYYY_MM itemDate in
    Normal (String.eqb itemMonth lastMonthStr && isSameOrBefore itemDate end_).

Definition lastMonthStr (endDateTime zone : string) : string :=
  format_YYYY_MM (startOf_month (moment_tz endDateTime zone)).

Definition lastMonthData (filtered : list Returned) (endDateTime zone : string)
    (end_ : moment) : completion (list Returned) :=
  filter_c (in_last_month (lastMonthStr endDateTime zone) end_) filtered.

(** The totals object: the monthly sums stay 0 unless the monthly subset is
    non-empty. *)
Definition totals_of (filtered lastMonthData : list Returned) (lastMonthStr : string) : Totals :=
  let totalCarbon := (reduce_sum carbon_saved filtered / 1000)%float in
  let totalFuel := reduce_sum fueld_saved filtered in
  let '(monthlyCarbon, monthlyFuel) :=
    if 0 <? Z.of_nat (length lastMonthData)
    then ((reduce_sum carbon_saved lastMonthData / 1000)%float,
          reduce_sum fueld_saved lastMonthData)
    else (PrimFloat.zero, PrimFloat.zero) in
  {| totalCarbon := totalCarbon;
     totalFuel := totalFuel;
     monthlyCarbon := monthlyCarbon;
     monthlyFuel := monthlyFuel;
     lastMonth := lastMonthStr |}.

Definition find_device (devs : list Device) (deviceId : string) : option Device :=
  find (fun d => JS.strict_eq (id d) (JS.parseInt deviceId)) devs.

Definition savings_handler (st : Store) (q : Query) : Result :=
  if negb (JS.truthy_str (deviceId q)) || negb (JS.truthy_str (startDateTime q))
     || negb (JS.truthy_str (endDateTime q))
  then Sent 400 (json_error "deviceId, startDateTime, and endDateTime are required")
  else
    match deviceId q, startDateTime q, endDateTime q with
    | Some deviceId, Some startDateTime, Some endDateTime =>
        match find_device (devices st) deviceId with
        | None => Sent 404 (json_error "Device not found")
        | Some device =>
            let start := moment_tz startDateTime (timezone device) in
            let end_ := moment_tz endDateTime (timezone device) in
            if negb (isValid start) || negb (isValid end_)
            then Sent 400 (json_error "Invalid startDateTime or endDateTime format")
            else
              let filtered := filteredData (savingsData st) deviceId start end_ in
              let lastMonthStr := lastMonthStr endDateTime (timezone device) in
              match lastMonthData filtered endDateTime (timezone device) end_ with
              | Throw e => Thrown e
              | Normal lastMonthData =>
                  Sent 200 (json_ok filtered (totals_of filtered lastMonthData lastMonthStr))
              end
        end
    | _, _, _ => Sent 400 (json_error "deviceId, startDateTime, and endDateTime are required")
    end.

End Handler.

(** ** An executable instance of the library interface

    A part of moment and moment-timezone that can be evaluated: zones with a
    fixed offset, the proleptic Gregorian calendar, and these inputs:
    - ISO-8601 [YYYY-MM-DD], optionally followed by [T] or a space and
      [HH:mm] or [HH:mm:ss], optionally followed by [Z] or [+HH:mm] / [-HH:mm];
    - [YYYY/MM/DD HH:mm:ss], which is not ISO-8601 and which the default
      parse hands to the engine's [Date] (read as local time, as UTC for
      [moment.utc]).
    On any other input the instance answers [None]; it is used on inputs of
    these shapes only. *)

Module FixedOffset.

Local Notation "' p <- e ;; k" :=
  (match e with Some p => k | None => None end)
  (at level 61, p pattern, e at next level, right associativity).

Definition ms_per_minute : Z := 60000.
Definition ms_per_day : Z := 86400000.

(** Days from 1970-01-01 to the civil date [y-m-d]. *)
Definition days_from_civil (y m d : Z) : Z :=
  let y' := if m <=? 2 then y - 1 else y in
  let era := y' / 400 in
  let yoe := y' - era * 400 in
  let mp := (m + 9) mod 12 in
  let doy := (153 * mp + 2) / 5 + d - 1 in
  let doe := yoe * 365 + yoe / 4 - yoe / 100 + doy in
  era * 146097 + doe - 719468.

(** The civil date of a day count, as [(year, month, day)]. *)
Definition civil_from_days (z : Z) : Z * Z * Z :=
  let z := z + 719468 in
  let era := z / 146097 in
  let doe := z - era * 146097 in
  let yoe := (doe - doe / 1460 + doe / 36524 - doe / 146096) / 365 in
  let y := yoe + era * 400 in
  let doy := doe - (365 * yoe + yoe / 4 - yoe / 100) in
  let mp := (5 * doy + 2) / 153 in
  let d := doy - (153 * mp + 2) / 5 + 1 in
  let m := if mp <? 10 then mp + 3 else mp - 9 in
  (if m <=? 2 then y + 1 else y, m, d).

Definition is_leap (y : Z) : bool :=
  (y mod 4 =? 0) && (negb (y mod 100 =? 0) || (y mod 400 =? 0)).

Definition days_in_month (y m : Z) : Z :=
  if m =? 2 then (if is_leap y then 29 else 28)
  else if (m =? 4) || (m =? 6) || (m =? 9) || (m =? 11) then 30
  else 31.

(** The fields read from an input, with the offset in minutes east of UTC when
    the input carries one. *)
Record fields : Type := {
  f_year : Z; f_month : Z; f_day : Z;
  f_hour : Z; f_minute : Z; f_second : Z;
  f_offset : option Z
}.

(** The overflow check of the library; [24:00:00] is the end of the day. *)
Definition fields_valid (f : fields) : bool :=
  (1 <=? f_month f) && (f_month f <=? 12)
  && (1 <=? f_day f) && (f_day f <=? days_in_month (f_year f) (f_month f))
  && ((f_hour f <=? 23) || ((f_hour f =? 24) && (f_minute f =? 0) && (f_second f =? 0)))
  && (f_minute f <=? 59) && (f_second f <=? 59).

(** The instant of the fields read as wall-clock time at [offset] minutes
    east of UTC. *)
Definition instant_at (offset : Z) (f : fields) : Z :=
  days_from_civil (f_year f) (f_month f) (f_day f) * ms_per_day
  + ((f_hour f * 60 + f_minute f) * 60 + f_second f) * 1000
  - offset * ms_per_minute.

Definition digit (c : ascii) : option Z :=
  if JS.is_digit c then Some (JS.code c - 48) else None.

Definition read2 (s : string) : option (Z * string) :=
  match s with
  | String a (String b r) =>
      ' x <- digit a ;;
      ' y <- digit b ;;
      Some (10 * x + y, r)
  | _ => None
  end.

Definition read4 (s : string) : option (Z * string) :=
  ' (hi, r) <- read2 s ;;
  ' (lo, r') <- read2 r ;;
  Some (100 * hi + lo, r').

Definition expect (c : ascii) (s : string) : option string :=
  match s with
  | String c' r => if Ascii.eqb c c' then Some r else None
  | EmptyString => None
  end.

(** [YYYY<sep>MM<sep>DD] *)
Definition read_date (sep : ascii) (s : string) : option (Z * Z * Z * string) :=
  ' (y, r1) <- read4 s ;;
  ' r2 <- expect sep r1 ;;
  ' (m, r3) <- read2 r2 ;;
  ' r4 <- expect sep r3 ;;
  ' (d, r5) <- read2 r4 ;;
  Some (y, m, d, r5).

(** [HH:mm] or [HH:mm:ss] *)
Definition read_time (s : string) : option (Z * Z * Z * string) :=
  ' (h, r1) <- read2 s ;;
  ' r2 <- expect ":" r1 ;;
  ' (mi, r3) <- read2 r2 ;;
  match expect ":" r3 with
  | Some r4 => ' (sec, r5) <- read2 r4 ;; Some (h, mi, sec, r5)
  | None => Some (h, mi, 0, r3)
  end.

(** Nothing, [Z], [+HH:mm] or [-HH:mm], up to the end of the input. *)
Definition read_offset (s : string) : option (option Z) :=
  match s with
  | EmptyString => Some None
  | String sign r =>
      if Ascii.eqb sign "Z" then
        match r with
        | EmptyString => Some (Some 0)
        | String _ _ => None
        end
      else if Ascii.eqb sign "+" || Ascii.eqb sign "-" then
        ' (h, r1) <- read2 r ;;
        ' r2 <- expect ":" r1 ;;
        ' (mi, r3) <- read2 r2 ;;
        match r3 with
        | EmptyString =>
            Some (Some (if Ascii.eqb sign "-" then - (h * 60 + mi) else h * 60 + mi))
        | String _ _ => None
        end
      else None
  end.

Definition read_iso (s : string) : option fields :=
  ' (y, m, d, rest) <- read_date "-" s ;;
  match rest with
  | EmptyString =>
      Some {| f_year := y; f_month := m; f_day := d;
              f_hour := 0; f_minute := 0; f_second := 0; f_offset := None |}
  | String sep r =>
      if Ascii.eqb sep "T" || Ascii.eqb sep " " then
        ' (h, mi, sec, r') <- read_time r ;;
        ' off <- read_offset r' ;;
        Some {| f_year := y; f_month := m; f_day := d;
                f_hour := h; f_minute := mi; f_second := sec; f_offset := off |}
      else None
  end.

(** [YYYY/MM/DD HH:mm:ss], for the engine's [Date]. *)
Definition read_slash (s : string) : option fields :=
  ' (y, m, d, rest) <- read_date "/" s ;;
  ' r <- expect " " rest ;;
  ' (h, mi, sec, r') <- read_time r ;;
  match r' with
  | EmptyString =>
      Some {| f_year := y; f_month := m; f_day := d;
              f_hour := h; f_minute := mi; f_second := sec; f_offset := None |}
  | String _ _ => None
  end.

(** An ISO input at [offset] when it carries none of its own. *)
Definition iso_instant (offset : Z) (s : string) : option Z :=
  ' f <- read_iso s ;;
  if fields_valid f
  then Some (instant_at (match f_offset f with Some o => o | None => offset end) f)
  else None.

Definition slash_instant (offset : Z) (s : string) : option Z :=
  ' f <- read_slash s ;;
  if fields_valid f && (f_hour f <=? 23) then Some (instant_at offset f) else None.

Definition lower (c : ascii) : ascii :=
  let n := JS.code c in
  if (65 <=? n) && (n <=? 90) then ascii_of_N (Z.to_N (n + 32)) else c.

Fixpoint lowercase (s : string) : string :=
  match s with
  | EmptyString => EmptyString
  | String c r => String (lower c) (lowercase r)
  end.

(** Zones whose offset has not changed since 1992, in minutes east of UTC. *)
Definition zones : list (string * Z) :=
  [("asia/kolkata", 330); ("asia/calcutta", 330); ("utc", 0); ("etc/utc", 0);
   ("asia/tokyo", 540); ("asia/dubai", 240); ("asia/singapore", 480)].

(** Zone names are looked up without regard to case. *)
Definition zone_offset (name : string) : option Z :=
  match find (fun z => String.eqb (fst z) (lowercase name)) zones with
  | Some z => Some (snd z)
  | None => None
  end.

Definition mode_offset (server_offset : Z) (md : mode) : Z :=
  match md with
  | Local => server_offset
  | Utc => 0
  | Zone name => match zone_offset name with Some o => o | None => 0 end
  end.

Definition decimal_digit (n : Z) : ascii := ascii_of_N (Z.to_N (48 + n mod 10)).

Definition pad2 (n : Z) : string :=
  String (decimal_digit (n / 10)) (String (decimal_digit n) EmptyString).

Definition pad4 (n : Z) : string := (pad2 (n / 100) ++ pad2 n)%string.

Definition civil_of (offset t : Z) : Z * Z * Z :=
  civil_from_days ((t + offset * ms_per_minute) / ms_per_day).

Definition fixed_month_start (offset t : Z) : Z :=
  let days := (t + offset * ms_per_minute) / ms_per_day in
  let '(_, _, d) := civil_from_days days in
  (days - (d - 1)) * ms_per_day - offset * ms_per_minute.

Definition fixed_year_month (offset t : Z) : string :=
  let '(y, m, _) := civil_of offset t in
  (pad4 y ++ "-" ++ pad2 m)%string.

(** The default parse: ISO-8601 first, then the engine's [Date]. *)
Definition default_instant (offset : Z) (s : string) : option Z :=
  match iso_instant offset s with
  | Some t => Some t
  | None => slash_instant offset s
  end.

(** [moment.tz(input, zone)]: the input is read as UTC, and the zone's offset
    is applied when the input was read by fields and carries no offset. *)
Definition tz_instant (s zone : string) : option Z :=
  match iso_instant (match zone_offset zone with Some o => o | None => 0 end) s with
  | Some t => Some t
  | None => slash_instant 0 s
  end.

(** The library on a server whose local time is [server_offset] minutes east
    of UTC. *)
Definition lib (server_offset : Z) : MomentLib :=
  {| tz_zone := fun name => match zone_offset name with Some _ => true | None => false end;
     parse_iso_strict := iso_instant server_offset;
     parse_default := default_instant server_offset;
     parse_utc := default_instant 0;
     parse_tz := tz_instant;
     month_start := fun md => fixed_month_start (mode_offset server_offset md);
     year_month := fun md => fixed_year_month (mode_offset server_offset md) |}.

End FixedOffset.

(** ** Definitions used in the statements

    Among them the notions the specification words differently from the
    code: [sum], [finite_nonnegative], [leading_digits],
    [in_range_device_zone] and [monthly_subset_device_zone]. *)

(** "The sum of" a list of numbers, from left to right. *)
Definition sum (l : list JS.number) : JS.number :=
  fold_left (fun acc x => (acc + x)%float) l PrimFloat.zero.

(** A request that passes the three checks of the handler: the parameters are
    present, the device is found, and both datetimes parse in its timezone,
    to the instants [s] and [e]. *)
Definition valid_query {M : MomentLib} (st : Store) (dId sdt edt : string)
    (dev : Device) (s e : Z) : Prop :=
  dId <> "" /\ sdt <> "" /\ edt <> "" /\
  find_device (devices st) dId = Some dev /\
  parse_tz sdt (timezone dev) = Some s /\
  parse_tz edt (timezone dev) = Some e.

Definition request (dId sdt edt : string) : Query :=
  {| deviceId := Some dId; startDateTime := Some sdt; endDateTime := Some edt |}.

(** A record of the queried device: its [device_id] is the number the request
    names. *)
Definition of_device (dId : string) (item : SavingsRecord) : Prop :=
  JS.strict_eq (device_id item) (JS.parseInt dId) = true.

(** A parameter of the request is missing: absent, or present and empty. *)
Definition missing (param : option string) : Prop := param = None \/ param = Some "".

(** The second filter's test on a record whose strict parse is valid. *)
Definition same_month_not_after {M : MomentLib} (lastMonthStr : string) (end_ : moment)
    (item : Returned) : bool :=
  let itemDate := startOf_month (moment_iso_strict (device_timestamp item)) in
  String.eqb (format_YYYY_MM itemDate) lastMonthStr && isSameOrBefore itemDate end_.

(** The strict ISO-8601 parse of the record's timestamp is valid. *)
Definition strict_iso {M : MomentLib} (item : Returned) : Prop :=
  isValid (moment_iso_strict (device_timestamp item)) = true.

(** "Finite and not below 0". *)
Definition finite_nonnegative (x : JS.number) : Prop :=
  is_finite x = true /\ (0 <=? x)%float = true.

(** The decimal digits a string starts with. *)
Definition leading_digits (s : string) : list Z := fst (JS.span_digits 10 s).

Fixpoint all_digits (s : string) : bool :=
  match s with
  | EmptyString => true
  | String c r => JS.is_digit c && all_digits r
  end.

Definition starts_with_digit (s : string) : bool :=
  match s with
  | String c _ => JS.is_digit c
  | EmptyString => false
  end.

(** The range test as the specification words it: the record's timestamp is
    read in the zone of the queried device. *)
Definition in_range_device_zone {M : MomentLib} (zone : string) (start end_ : moment)
    (item : SavingsRecord) : bool :=
  isBetween (moment_tz (device_timestamp item) zone) start end_.

(** The monthly subset as the specification words it: the returned records
    whose normalized timestamp falls in the calendar month, in the device's
    zone, that contains the end datetime, and is not after the end. *)
Definition monthly_subset_device_zone {M : MomentLib} (zone : string) (end_ : moment)
    (returned : list Returned) : list Returned :=
  filter (fun r : Returned =>
            let t := normalize (device_timestamp r) in
            String.eqb (format_YYYY_MM {| m_value := m_value t; m_mode := Zone zone |})
                       (format_YYYY_MM end_)
            && isSameOrBefore t end_)
         returned.

(** The year-month the second filter computes for a record: that of the
    strict parse, a moment in the server's local time. *)
Definition server_local_month {M : MomentLib} (item : Returned) : string :=
  format_YYYY_MM (startOf_month (moment_iso_strict (device_timestamp item))).

(** ** The devices endpoint and further notions for the server *)

Definition json_of_device (d : Device) : jsval :=
  VObj [("id", VNum (id d)); ("name", VStr (name d)); ("timezone", VStr (timezone d))].

(** The handler of GET /api/devices: [res.json(devices)]. *)
Definition devices_handler (st : Store) : Result :=
  Sent 200 (VArr (map json_of_device (devices st))).

(** The three error bodies of the savings handler. *)
Definition body_missing : jsval :=
  VObj [("error", VStr "deviceId, startDateTime, and endDateTime are required")].

Definition body_not_found : jsval := VObj [("error", VStr "Device not found")].

Definition body_invalid_range : jsval :=
  VObj [("error", VStr "Invalid startDateTime or endDateTime format")].

(** The store with other savings records, and with other devices. *)
Definition with_savings (st : Store) (savings : list SavingsRecord) : Store :=
  {| devices := devices st; savingsData := savings |}.

Definition with_devices (st : Store) (devs : list Device) : Store :=
  {| devices := devs; savingsData := savingsData st |}.

(** One of the three parsers of the first filter reads the timestamp. *)
Definition readable {M : MomentLib} (item : SavingsRecord) : bool :=
  isValid (normalize (device_timestamp item)).

(** [item.device_id === parseInt(deviceId)] *)
Definition same_device (dId : string) (item : SavingsRecord) : bool :=
  JS.strict_eq (device_id item) (JS.parseInt dId).

(** The totals of a response with no record. *)
Definition zero_totals (lastMonthStr : string) : Totals :=
  {| totalCarbon := 0%float; totalFuel := 0%float;
     monthlyCarbon := 0%float; monthlyFuel := 0%float;
     lastMonth := lastMonthStr |}.

Fixpoint all_white_space (s : string) : bool :=
  match s with
  | EmptyString => true
  | String c r => JS.is_white_space c && all_white_space r
  end.

(** A CSV value between double quotes. *)
Definition quoted (v : string) : string := String JS.dquote (v ++ String JS.dquote "").

(** The first character is neither white space nor a double quote; the same
    of the last character. *)
Definition plain_char (c : ascii) : bool :=
  negb (JS.is_white_space c) && negb (Ascii.eqb c JS.dquote).

Definition starts_plain (s : string) : bool :=
  match s with
  | String c _ => plain_char c
  | EmptyString => false
  end.

Fixpoint ends_plain (s : string) : bool :=
  match s with
  | EmptyString => false
  | String c EmptyString => plain_char c
  | String _ r => ends_plain r
  end.

(** ** The page: the chart (public/app.js, [renderChart])

    The part of [renderChart] that groups the received records by month: the
    loop over [this.data], which fills the set [allMonths] and the object
    [monthlyData], and [xAxisData], the sorted labels.  The two series
    [carbonData] and [fuelData] are read off [monthlyData] at the labels of
    [xAxisData] and rounded with [toFixed(2)]; the rounding is not part of
    the model.  The page runs in a browser with its own moment library,
    moment-timezone included, and the chart object is taken as initialised. *)

Module Chart.

(** An element of [this.data] as the page reads it: [None] stands for a field
    that is absent or null. *)
Record Item : Type := {
  item_timestamp : option string;
  item_carbon_saved : option JS.number;
  item_fueld_saved : option JS.number
}.

(** A value of [monthlyData]. *)
Record Bucket : Type := { carbon : JS.number; fuel : JS.number; count : JS.number }.

(** [value || 0] on a number that may be absent. *)
Definition or_zero (value : option JS.number) : JS.number :=
  match value with
  | Some x => JS.or_zero x
  | None => PrimFloat.zero
  end.

Section Browser.
Context {B : MomentLib}.

(** [m.tz(name)]: the moment is displayed in the zone when the zone database
    knows the name, and is left as it is otherwise. *)
Definition tz (m : moment) (name : string) : moment :=
  if tz_zone name then {| m_value := m_value m; m_mode := Zone name |} else m.

(** The label of a record: the month of its strict ISO-8601 parse in
    Asia/Kolkata, else the month of the default parse in the browser's local
    time. *)
Definition month_label (timestamp : string) : string :=
  let parsed := moment_iso_strict timestamp in
  if isValid parsed then format_YYYY_MM (tz parsed "Asia/Kolkata")
  else format_YYYY_MM (moment_default timestamp).

(** [allMonths.add(month)], the set kept in insertion order. *)
Definition set_add (month : string) (allMonths : list string) : list string :=
  if existsb (String.eqb month) allMonths then allMonths else (allMonths ++ [month])%list.

(** [monthlyData[month]] *)
Definition lookup (month : string) (monthlyData : list (string * Bucket)) : option Bucket :=
  match find (fun kv => String.eqb (fst kv) month) monthlyData with
  | Some kv => Some (snd kv)
  | None => None
  end.

(** The bucket of the month is created when there is none, then the record
    is added to it. *)
Definition add_to_month (month : string) (carbonValue fuelValue : JS.number)
    (monthlyData : list (string * Bucket)) : list (string * Bucket) :=
  let monthlyData :=
    match lookup month monthlyData with
    | None =>
        (monthlyData ++
         [(month, {| carbon := PrimFloat.zero; fuel := PrimFloat.zero;
                     count := PrimFloat.zero |})])%list
    | Some _ => monthlyData
    end in
  map (fun kv : string * Bucket =>
         if String.eqb (fst kv) month
         then (fst kv,
               {| carbon := (carbon (snd kv) + carbonValue)%float;
                  fuel := (fuel (snd kv) + fuelValue)%float;
                  count := (count (snd kv) + 1)%float |})
         else kv)
      monthlyData.

(** One turn of the loop: a record with no timestamp is skipped. *)
Definition step (acc : list string * list (string * Bucket)) (item : Item)
    : list string * list (string * Bucket) :=
  if negb (JS.truthy_str (item_timestamp item)) then acc
  else
    match item_timestamp item with
    | Some timestamp =>
        let month := month_label timestamp in
        (set_add month (fst acc),
         add_to_month month (or_zero (item_carbon_saved item))
           (or_zero (item_fueld_saved item)) (snd acc))
    | None => acc
    end.

Definition grouped (data : list Item) : list string * list (string * Bucket) :=
  fold_left step data ([], []).

(** [Array.prototype.sort()] with no comparator puts strings in ascending
    order of their code units. *)
Fixpoint insert_sorted (x : string) (l : list string) : list string :=
  match l with
  | [] => [x]
  | y :: l' => if String.leb x y then x :: l else y :: insert_sorted x l'
  end.

Definition sort (l : list string) : list string := fold_right insert_sorted [] l.

(** [xAxisData] *)
Definition xAxisData (data : list Item) : list string := sort (fst (grouped data)).

Definition monthlyData (data : list Item) : list (string * Bucket) := snd (grouped data).

End Browser.

End Chart.

(** A record has a label when its timestamp is present and not empty. *)
Definition labelled {B : MomentLib} (item : Chart.Item) (month : string) : Prop :=
  exists timestamp,
    Chart.item_timestamp item = Some timestamp /\ timestamp <> "" /\
    Chart.month_label timestamp = month.

(** Strictly ascending order of two strings, by code units. *)
Definition increasing (x y : string) : Prop := String.ltb x y = true.

(** ** The page: the preset ranges (public/app.js, [setDateRange])

    [Date] after ECMA-262: a time value in milliseconds, the day number and
    the time within the day, the civil date of a day, [MakeDay], and the
    local time zone adjustment of the browser, which is a parameter. *)

Module Presets.

Definition msPerDay : Z := 86400000.

Definition Day (t : Z) : Z := t / msPerDay.
Definition TimeWithinDay (t : Z) : Z := t mod msPerDay.

Definition YearFromTime (t : Z) : Z := fst (fst (FixedOffset.civil_from_days (Day t))).
(** Months count from 0. *)
Definition MonthFromTime (t : Z) : Z := snd (fst (FixedOffset.civil_from_days (Day t))) - 1.
Definition DateFromTime (t : Z) : Z := snd (FixedOffset.civil_from_days (Day t)).

Definition MakeDay (year month date : Z) : Z :=
  FixedOffset.days_from_civil (year + month / 12) (month mod 12 + 1) 1 + date - 1.

Definition MakeDate (day time : Z) : Z := day * msPerDay + time.

(** [new Date("2024-01-01T23:59:00+05:30")] *)
Definition baseDate : Z := 1704133740000.

(** [d.toISOString().slice(0, 16)]: [YYYY-MM-DDTHH:mm] in UTC. *)
Definition iso_minutes (t : Z) : string :=
  let '(y, m, d) := FixedOffset.civil_from_days (Day t) in
  let minutes := TimeWithinDay t / 60000 in
  (FixedOffset.pad4 y ++ "-" ++ FixedOffset.pad2 m ++ "-" ++ FixedOffset.pad2 d ++ "T"
   ++ FixedOffset.pad2 (minutes / 60) ++ ":" ++ FixedOffset.pad2 (minutes mod 60))%string.

Section Browser.
(** The offset of the browser's local time, in milliseconds, at a UTC time
    value ([true]) and at a local one ([false]). *)
Variable LocalTZA : Z -> bool -> Z.

Definition LocalTime (t : Z) : Z := t + LocalTZA t true.
Definition UTC (t : Z) : Z := t - LocalTZA t false.

Definition getDate (t : Z) : Z := DateFromTime (LocalTime t).
Definition getFullYear (t : Z) : Z := YearFromTime (LocalTime t).

(** [d.setDate(date)] and [d.setFullYear(year)], as the time value they
    return. *)
Definition setDate (t date : Z) : Z :=
  let local := LocalTime t in
  UTC (MakeDate (MakeDay (YearFromTime local) (MonthFromTime local) date)
         (TimeWithinDay local)).

Definition setFullYear (t year : Z) : Z :=
  let local := LocalTime t in
  UTC (MakeDate (MakeDay year (MonthFromTime local) (DateFromTime local))
         (TimeWithinDay local)).

(** [setDateRange(range)], as the pair of [startDateTime] and [endDateTime]
    it leaves, from the [startDateTime] it finds. *)
Definition setDateRange (range : string) (startDateTime : string) : string * string :=
  let endDateTime := iso_minutes baseDate in
  let startDateTime :=
    if String.eqb range "last30"
    then iso_minutes (setDate baseDate (getDate baseDate - 30))
    else if String.eqb range "last60"
    then iso_minutes (setDate baseDate (getDate baseDate - 60))
    else if String.eqb range "lastYear"
    then iso_minutes (setFullYear baseDate (getFullYear baseDate - 1))
    else startDateTime in
  (startDateTime, endDateTime).

End Browser.

End Presets.

(** ** Sample data: one device in Asia/Kolkata, on a server whose local time
    is UTC *)

Module Sample.

Definition lib : MomentLib := FixedOffset.lib 0.

Definition device_rows : list DeviceRow :=
  [{| row_id := "1"; row_name := "A"; row_timezone := "Asia/Kolkata" |}].

Definition saving (device_timestamp carbon_saved fueld_saved : string) : SavingsRow :=
  {| row_device_id := "1";
     row_device_timestamp := device_timestamp;
     row_carbon_saved := carbon_saved;
     row_fueld_saved := fueld_saved |}.

Definition store (savings : list SavingsRow) : Store :=
  @loadData lib (Some (device_rows, savings)).

Definition device : Device :=
  {| id := 1%float; name := "A"; timezone := "Asia/Kolkata" |}.

(** The example of the specification: one record, with its offset. *)
Definition june_rows : list SavingsRow := [saving "2023-06-15T10:00:00+05:30" "500" "10"].

(** A timestamp that is not ISO-8601 and that the default parse reads. *)
Definition slash_rows : list SavingsRow := [saving "2023/06/15 10:00:00" "500" "10"].

(** A timestamp with no offset. *)
Definition naive_rows : list SavingsRow := [saving "2023-06-15T10:00:00" "500" "10"].

(** 20:00 UTC on 30 June is 01:30 on 1 July in Asia/Kolkata. *)
Definition month_end_rows : list SavingsRow := [saving "2023-06-30T20:00:00Z" "500" "10"].

Definition negative_row : SavingsRow := saving "2023-06-15T10:00:00+05:30" "-5" "Infinity".

Definition june_row : SavingsRow := saving "2023-06-15T10:00:00+05:30" "500" "10".

(** 2023-06-01T00:00 and 2023-06-30T23:59 in Asia/Kolkata, and the instant of
    the June record. *)
Definition june_start : Z := 1685557800000.
Definition june_end : Z := 1688149740000.
Definition june_record_instant : Z := 1686803400000.

End Sample.

(** ** More sample data *)

Module MoreSamples.

(** Two device rows with the same id and different timezones, and a device
    with no savings row. *)
Definition twin_rows : list DeviceRow :=
  [{| row_id := "1"; row_name := "A"; row_timezone := "Asia/Kolkata" |};
   {| row_id := "1"; row_name := "B"; row_timezone := "Asia/Tokyo" |};
   {| row_id := "2"; row_name := "C"; row_timezone := "UTC" |}].

Definition twin_store : Store := @loadData Sample.lib (Some (twin_rows, Sample.june_rows)).

Definition device_C : Device := {| id := 2%float; name := "C"; timezone := "UTC" |}.

(** A savings row whose device id is not a number. *)
Definition stray_row : SavingsRow :=
  {| row_device_id := "abc"; row_device_timestamp := "2023-06-15T10:00:00+05:30";
     row_carbon_saved := "500"; row_fueld_saved := "10" |}.

(** Two records as the page receives them, one with a timestamp no parse
    reads. *)
Definition chart_items : list Chart.Item :=
  [{| Chart.item_timestamp := Some "2023-06-30T20:00:00Z";
      Chart.item_carbon_saved := Some 500%float;
      Chart.item_fueld_saved := Some 10%float |};
   {| Chart.item_timestamp := Some "not-a-date";
      Chart.item_carbon_saved := Some 1%float;
      Chart.item_fueld_saved := None |}].

(** A browser at +05:30. *)
Definition kolkata_browser : Z -> bool -> Z := fun _ _ => 19800000.

End MoreSamples.

(** ** Properties *)

Section Facts.
Context {M : MomentLib}.

Lemma truthy_str_nonempty (x : string) : x <> "" -> JS.truthy_str (Some x) = true.
Proof. destruct x; [congruence | reflexivity]. Qed.

(** On a valid query the handler ends as the monthly filter does. *)
Lemma handler_valid st dId sdt edt dev s e :
  valid_query st dId sdt edt dev s e ->
  let zone := timezone dev in
  let end_ := moment_tz edt zone in
  let filtered := filteredData (savingsData st) dId (moment_tz sdt zone) end_ in
  savings_handler st (request dId sdt edt) =
  match lastMonthData filtered edt zone end_ with
  | Throw err => Thrown err
  | Normal lmd => Sent 200 (json_ok filtered (totals_of filtered lmd (lastMonthStr edt zone)))
  end.
Proof.
  intros (Hd & Hs & He & Hfind & Hps & Hpe). cbn zeta.
  unfold savings_handler, request. cbn [deviceId startDateTime endDateTime].
  rewrite !truthy_str_nonempty by assumption. cbn [negb orb].
  rewrite Hfind. unfold isValid, moment_tz. cbn [m_value].
  rewrite Hps, Hpe. reflexivity.
Qed.

Lemma filter_c_normal {A : Type} (f : A -> completion bool) (g : A -> bool) (l : list A) :
  (forall x, In x l -> f x = Normal (g x)) -> filter_c f l = Normal (filter g l).
Proof.
  induction l as [|x l IH]; intros H; cbn; [reflexivity|].
  rewrite (H x (or_introl eq_refl)), IH by (intros; apply H; now right).
  reflexivity.
Qed.

Lemma filter_c_throw {A : Type} (f : A -> completion bool) (l : list A) (err : string) :
  (forall x, In x l -> f x = Throw err \/ exists b, f x = Normal b) ->
  (exists x, In x l /\ f x = Throw err) ->
  filter_c f l = Throw err.
Proof.
  induction l as [|x l IH]; intros Hall (y & Hy & Hf); [destruct Hy|].
  cbn. destruct (Hall x (or_introl eq_refl)) as [Hx | (b & Hx)]; rewrite Hx; [reflexivity|].
  rewrite IH; [reflexivity | intros; apply Hall; now right |].
  destruct Hy as [-> | Hy]; [congruence | eauto].
Qed.

Lemma in_last_month_cases lastMonthStr end_ item :
  (strict_iso item /\
   in_last_month lastMonthStr end_ item = Normal (same_month_not_after lastMonthStr end_ item))
  \/ (~ strict_iso item /\ in_last_month lastMonthStr end_ item = Throw const_assignment).
Proof.
  unfold in_last_month, same_month_not_after, strict_iso.
  destruct (isValid (moment_iso_strict (device_timestamp item))); cbn [negb];
    [left | right]; split; try reflexivity; discriminate.
Qed.

Lemma lastMonthData_normal filtered edt zone end_ :
  (forall r, In r filtered -> strict_iso r) ->
  lastMonthData filtered edt zone end_ =
  Normal (filter (same_month_not_after (lastMonthStr edt zone) end_) filtered).
Proof.
  intros H. apply filter_c_normal. intros r Hr.
  destruct (in_last_month_cases (lastMonthStr edt zone) end_ r) as [[_ E] | [N _]];
    [exact E | destruct (N (H r Hr))].
Qed.

Lemma lastMonthData_throw filtered edt zone end_ :
  (exists r, In r filtered /\ ~ strict_iso r) ->
  lastMonthData filtered edt zone end_ = Throw const_assignment.
Proof.
  intros (r & Hr & N). apply filter_c_throw.
  - intros x _. destruct (in_last_month_cases (lastMonthStr edt zone) end_ x) as [[_ E] | [_ E]];
      [right; eauto | now left].
  - exists r. split; [exact Hr|].
    destruct (in_last_month_cases (lastMonthStr edt zone) end_ r) as [[V _] | [_ E]];
      [destruct (N V) | exact E].
Qed.

Lemma strict_iso_all_or_not (l : list Returned) :
  (forall r, In r l -> strict_iso r) \/ (exists r, In r l /\ ~ strict_iso r).
Proof.
  induction l as [|x l [IH | (r & Hr & N)]].
  - left. intros r [].
  - unfold strict_iso at 2.
    destruct (isValid (moment_iso_strict (device_timestamp x))) eqn:E.
    + left. intros r [<- | Hr]; [exact E | now apply IH].
    + right. exists x. split; [now left | unfold strict_iso; congruence].
  - right. exists r. split; [now right | exact N].
Qed.

(** The two ways a valid query ends. *)
Lemma handler_valid_sent st dId sdt edt dev s e :
  valid_query st dId sdt edt dev s e ->
  let zone := timezone dev in
  let end_ := moment_tz edt zone in
  let filtered := filteredData (savingsData st) dId (moment_tz sdt zone) end_ in
  (forall r, In r filtered -> strict_iso r) ->
  savings_handler st (request dId sdt edt) =
  Sent 200 (json_ok filtered
              (totals_of filtered
                 (filter (same_month_not_after (lastMonthStr edt zone) end_) filtered)
                 (lastMonthStr edt zone))).
Proof.
  intros V zone end_ filtered H.
  rewrite (handler_valid _ _ _ _ _ _ _ V). fold zone end_ filtered.
  now rewrite lastMonthData_normal.
Qed.

Lemma handler_valid_thrown st dId sdt edt dev s e :
  valid_query st dId sdt edt dev s e ->
  let zone := timezone dev in
  let end_ := moment_tz edt zone in
  let filtered := filteredData (savingsData st) dId (moment_tz sdt zone) end_ in
  (exists r, In r filtered /\ ~ strict_iso r) ->
  savings_handler st (request dId sdt edt) = Thrown const_assignment.
Proof.
  intros V zone end_ filtered H.
  rewrite (handler_valid _ _ _ _ _ _ _ V). fold zone end_ filtered.
  now rewrite lastMonthData_throw.
Qed.

Lemma isBetween_spec (m start end_ : moment) (s e : Z) :
  m_value start = Some s -> m_value end_ = Some e ->
  isBetween m start end_ = true <-> exists t, m_value m = Some t /\ s <= t <= e.
Proof.
  intros Hs He. unfold isBetween, isValid, isBefore, isAfter. rewrite Hs, He.
  destruct (m_value m) as [t|]; cbn.
  - rewrite andb_true_iff, !negb_true_iff, !Z.ltb_ge. split.
    + intros [? ?]. exists t. split; [reflexivity | lia].
    + intros (t' & [= <-] & ?). lia.
  - split; [discriminate | intros (t & [=] & _)].
Qed.

Lemma in_filteredData savings dId start end_ (r : Returned) :
  In r (filteredData savings dId start end_) <->
  r = annotate r /\ In (source r) savings /\ of_device dId r /\
  isBetween (normalize (device_timestamp r)) start end_ = true.
Proof.
  unfold filteredData, of_device. rewrite in_map_iff. split.
  - intros (item & <- & Hin). apply filter_In in Hin as [Hin Hp].
    unfold in_range in Hp. cbn [annotate source].
    destruct (JS.strict_eq (device_id item) (JS.parseInt dId)); cbn [negb] in Hp;
      [auto | discriminate].
  - intros (E & Hin & Hd & Hb). exists (source r). split; [symmetry; exact E|].
    apply filter_In. split; [exact Hin|]. unfold in_range. rewrite Hd. exact Hb.
Qed.

End Facts.

(** ** The request checks *)

Section Checks.
Context {M : MomentLib}.

(** C8: a request to GET /api/savings in which deviceId, startDateTime or
    endDateTime is missing is answered with status 400 and the body
    [{error: "deviceId, startDateTime, and endDateTime are required"}],
    whatever the store holds and whatever the other parameters are: the check
    comes before the device lookup and the range validation. *)
Theorem missing_parameter_400 (st : Store) (q : Query) :
  missing (deviceId q) \/ missing (startDateTime q) \/ missing (endDateTime q) ->
  savings_handler st q =
  Sent 400 (VObj [("error", VStr "deviceId, startDateTime, and endDateTime are required")]).
Proof.
  unfold missing, savings_handler. destruct q as [d a b].
  cbn [deviceId startDateTime endDateTime]. intros H.
  destruct d as [[|? ?]|], a as [[|? ?]|], b as [[|? ?]|]; try reflexivity;
    exfalso; destruct H as [[H|H] | [[H|H] | [H|H]]]; discriminate.
Qed.

(** C7: the timezone resolver returns its input unchanged when the zone
    database knows the name and "Asia/Kolkata" otherwise; it is a total
    function, so, the default zone being in the database, the timezone of
    every loaded device is a name the database knows. *)
Theorem resolveTimezone_known (kolkata : tz_zone "Asia/Kolkata" = true) :
  (forall tz, tz_zone tz = true -> resolveTimezone tz = tz) /\
  (forall tz, tz_zone tz = false -> resolveTimezone tz = "Asia/Kolkata") /\
  (forall tz, tz_zone (resolveTimezone tz) = true) /\
  (forall files d, In d (devices (loadData files)) -> tz_zone (timezone d) = true).
Proof.
  assert (R : forall tz, tz_zone (resolveTimezone tz) = true).
  { intros tz. unfold resolveTimezone. destruct (tz_zone tz) eqn:E; [exact E | exact kolkata]. }
  repeat split.
  - intros tz H. unfold resolveTimezone. now rewrite H.
  - intros tz H. unfold resolveTimezone. now rewrite H.
  - exact R.
  - intros [[dcsv scsv]|] d; cbn [loadData devices]; [|intros []].
    rewrite in_map_iff. intros (row & <- & _). apply R.
Qed.

(** C10: for a device that is found and two datetimes that parse, the start
    strictly after the end, the handler answers 200 with no record, the four
    totals 0, and [lastMonth] the year-month of the end datetime in the
    device's zone. *)
Theorem reversed_range_is_empty st dId sdt edt dev s e :
  valid_query st dId sdt edt dev s e ->
  e < s ->
  savings_handler st (request dId sdt edt) =
  Sent 200
    (VObj [("data", VArr []);
           ("totals",
            VObj [("totalCarbon", VNum 0%float);
                  ("totalFuel", VNum 0%float);
                  ("monthlyCarbon", VNum 0%float);
                  ("monthlyFuel", VNum 0%float);
                  ("lastMonth",
                   VStr (year_month (Zone (timezone dev))
                           (month_start (Zone (timezone dev)) e)))])]).
Proof.
  intros V Hlt.
  assert (E : filteredData (savingsData st) dId (moment_tz sdt (timezone dev))
                (moment_tz edt (timezone dev)) = []).
  { destruct V as (_ & _ & _ & _ & Hs & He).
    destruct (filteredData _ _ _ _) as [|r l] eqn:F; [reflexivity|].
    assert (Hin : In r (filteredData (savingsData st) dId (moment_tz sdt (timezone dev))
                          (moment_tz edt (timezone dev)))) by (rewrite F; now left).
    apply in_filteredData in Hin as (_ & _ & _ & Hb).
    apply (isBetween_spec _ _ _ s e) in Hb as (t & _ & ?); [lia | exact Hs | exact He]. }
  rewrite (handler_valid_sent _ _ _ _ _ _ _ V); rewrite E; [|intros r []].
  destruct V as (_ & _ & _ & _ & _ & He).
  unfold json_ok, json_of_totals, totals_of, lastMonthStr, format_YYYY_MM, startOf_month,
    moment_tz.
  cbn. rewrite He. reflexivity.
Qed.

End Checks.

(** ** The range filter and the totals *)

Section Range.
Context {M : MomentLib}.

Lemma or_zero_idempotent (x : JS.number) : JS.or_zero (JS.or_zero x) = JS.or_zero x.
Proof.
  unfold JS.or_zero. destruct (JS.truthy x) eqn:E; [now rewrite E | reflexivity].
Qed.

Lemma reduce_sum_is_sum (field : Returned -> JS.number) (items : list Returned) :
  (forall r, In r items -> JS.or_zero (field r) = field r) ->
  reduce_sum field items = sum (map field items).
Proof.
  unfold reduce_sum, sum. generalize PrimFloat.zero.
  induction items as [|r items IH]; intros acc H; cbn; [reflexivity|].
  rewrite (H r (or_introl eq_refl)). apply IH. intros; apply H; now right.
Qed.

Lemma loaded_saved_stable files (item : SavingsRecord) :
  In item (savingsData (loadData files)) ->
  JS.or_zero (carbon_saved item) = carbon_saved item /\
  JS.or_zero (fueld_saved item) = fueld_saved item.
Proof.
  destruct files as [[dcsv scsv]|]; cbn [loadData savingsData]; [|intros []].
  rewrite in_map_iff. intros (row & <- & _). cbn [loadSaving carbon_saved fueld_saved].
  unfold transform_saved. now rewrite !or_zero_idempotent.
Qed.

(** C4: on a valid query, a savings record of the queried device is among the
    returned records exactly when its normalized timestamp [t] has
    [s <= t <= e], both ends included; a record exactly at [s] or exactly at
    [e] is returned. The returned records are those and no others, and they
    are the [data] of every response the handler sends, which it does
    whenever the strict parse of each of them is valid. *)
Theorem range_filter_inclusive st dId sdt edt dev s e :
  valid_query st dId sdt edt dev s e ->
  let start := moment_tz sdt (timezone dev) in
  let end_ := moment_tz edt (timezone dev) in
  let returned := filteredData (savingsData st) dId start end_ in
  (forall item, In item (savingsData st) -> of_device dId item ->
     (In (annotate item) returned <->
      exists t, m_value (normalize (device_timestamp item)) = Some t /\ s <= t <= e)) /\
  (forall item, In item (savingsData st) -> of_device dId item -> s <= e ->
     m_value (normalize (device_timestamp item)) = Some s \/
     m_value (normalize (device_timestamp item)) = Some e ->
     In (annotate item) returned) /\
  (forall r, In r returned ->
     r = annotate r /\ In (source r) (savingsData st) /\ of_device dId r) /\
  (forall status body, savings_handler st (request dId sdt edt) = Sent status body ->
     status = 200 /\ exists totals, body = json_ok returned totals) /\
  ((forall r, In r returned -> strict_iso r) ->
   exists totals, savings_handler st (request dId sdt edt) = Sent 200 (json_ok returned totals)).
Proof.
  intros V start end_ returned.
  assert (Hs : m_value start = Some s) by apply V.
  assert (He : m_value end_ = Some e) by apply V.
  assert (A : forall item, In item (savingsData st) -> of_device dId item ->
     (In (annotate item) returned <->
      exists t, m_value (normalize (device_timestamp item)) = Some t /\ s <= t <= e)).
  { intros item Hin Hd. unfold returned. rewrite in_filteredData.
    rewrite (isBetween_spec _ _ _ s e Hs He). cbn [annotate source]. tauto. }
  repeat split.
  - apply A; assumption.
  - apply A; assumption.
  - intros item Hin Hd Hse [H | H]; apply A; try assumption; [exists s | exists e];
      split; auto; lia.
  - apply in_filteredData in H. tauto.
  - apply in_filteredData in H. tauto.
  - apply in_filteredData in H. tauto.
  - destruct (strict_iso_all_or_not returned) as [G | B].
    + rewrite (handler_valid_sent _ _ _ _ _ _ _ V G) in H. now inversion H.
    + rewrite (handler_valid_thrown _ _ _ _ _ _ _ V B) in H. discriminate.
  - destruct (strict_iso_all_or_not returned) as [G | B].
    + rewrite (handler_valid_sent _ _ _ _ _ _ _ V G) in H. inversion H. eexists. reflexivity.
    + rewrite (handler_valid_thrown _ _ _ _ _ _ _ V B) in H. discriminate.
  - intros G. eexists. apply (handler_valid_sent _ _ _ _ _ _ _ V G).
Qed.

(** C5: on a valid query over a loaded store, [totalCarbon] is the sum of
    [carbon_saved] over the returned records divided by 1000, and
    [totalFuel] the sum of [fueld_saved] over the same records, not
    converted; these are the totals of every response the handler sends. *)
Theorem totals_are_sums files dId sdt edt dev s e :
  let st := loadData files in
  valid_query st dId sdt edt dev s e ->
  let returned :=
    filteredData (savingsData st) dId (moment_tz sdt (timezone dev))
      (moment_tz edt (timezone dev)) in
  (forall lastMonthData lastMonthStr,
     let totals := totals_of returned lastMonthData lastMonthStr in
     totalCarbon totals =
       (sum (map (fun r : Returned => carbon_saved r) returned) / 1000)%float /\
     totalFuel totals = sum (map (fun r : Returned => fueld_saved r) returned)) /\
  (forall status body, savings_handler st (request dId sdt edt) = Sent status body ->
     status = 200 /\
     exists totals, body = json_ok returned totals /\
       totalCarbon totals =
         (sum (map (fun r : Returned => carbon_saved r) returned) / 1000)%float /\
       totalFuel totals = sum (map (fun r : Returned => fueld_saved r) returned)) /\
  ((forall r, In r returned -> strict_iso r) ->
   exists totals, savings_handler st (request dId sdt edt) = Sent 200 (json_ok returned totals)).
Proof.
  intros st V returned.
  assert (S : forall r, In r returned ->
            JS.or_zero (carbon_saved r) = carbon_saved r /\
            JS.or_zero (fueld_saved r) = fueld_saved r).
  { intros r Hr. apply in_filteredData in Hr as (_ & Hin & _).
    apply (loaded_saved_stable files), Hin. }
  assert (T : forall lmd lms,
     totalCarbon (totals_of returned lmd lms) =
       (sum (map (fun r : Returned => carbon_saved r) returned) / 1000)%float /\
     totalFuel (totals_of returned lmd lms) =
       sum (map (fun r : Returned => fueld_saved r) returned)).
  { intros lmd lms. unfold totals_of.
    destruct (0 <? Z.of_nat (length lmd)); cbn [totalCarbon totalFuel];
      rewrite !reduce_sum_is_sum by (intros; now apply S); split; reflexivity. }
  split; [exact T|]. split.
  - intros status body H.
    destruct (strict_iso_all_or_not returned) as [G | B].
    + rewrite (handler_valid_sent _ _ _ _ _ _ _ V G) in H. inversion H; subst.
      split; [reflexivity|]. eexists. split; [reflexivity | apply T].
    + rewrite (handler_valid_thrown _ _ _ _ _ _ _ V B) in H. discriminate.
  - intros G. eexists. apply (handler_valid_sent _ _ _ _ _ _ _ V G).
Qed.

End Range.

(** ** Loading *)

Section Loading.
Context {M : MomentLib}.

Lemma or_zero_not_nan (x : JS.number) : is_nan (JS.or_zero x) = false.
Proof.
  unfold JS.or_zero, JS.truthy.
  destruct (is_zero x), (is_nan x) eqn:E; cbn; try reflexivity. exact E.
Qed.

Lemma or_zero_truthy (x : JS.number) : JS.truthy x = true -> JS.or_zero x = x.
Proof. unfold JS.or_zero. now intros ->. Qed.

Lemma or_zero_nan (x : JS.number) : is_nan x = true -> JS.or_zero x = 0%float.
Proof.
  unfold JS.or_zero, JS.truthy. intros ->. now rewrite orb_true_r.
Qed.

Lemma or_zero_zero (x : JS.number) : is_zero x = true -> JS.or_zero x = 0%float.
Proof.
  unfold JS.or_zero, JS.truthy. now intros ->.
Qed.

(** C6, as the code has it: after load, [carbon_saved] and [fueld_saved] of
    every stored record are numbers, never NaN; a value that [parseFloat]
    cannot read is stored as 0, and so is a value read as zero; any other
    value is stored as read, negative and infinite values included. *)
Theorem loaded_saved_are_numbers files (item : SavingsRecord) :
  In item (savingsData (loadData files)) ->
  (is_nan (carbon_saved item) = false /\ is_nan (fueld_saved item) = false) /\
  (forall value, is_nan (JS.parseFloat (clean value)) = true ->
     transform_saved value = 0%float) /\
  (forall value, is_zero (JS.parseFloat (clean value)) = true ->
     transform_saved value = 0%float) /\
  (forall value, JS.truthy (JS.parseFloat (clean value)) = true ->
     transform_saved value = JS.parseFloat (clean value)) /\
  (forall row, carbon_saved (loadSaving row) = transform_saved (row_carbon_saved row) /\
               fueld_saved (loadSaving row) = transform_saved (row_fueld_saved row)).
Proof.
  intros Hin. repeat split.
  - destruct files as [[dcsv scsv]|]; cbn [loadData savingsData] in Hin; [|destruct Hin].
    apply in_map_iff in Hin as (row & <- & _). apply or_zero_not_nan.
  - destruct files as [[dcsv scsv]|]; cbn [loadData savingsData] in Hin; [|destruct Hin].
    apply in_map_iff in Hin as (row & <- & _). apply or_zero_not_nan.
  - intros value H. now apply or_zero_nan.
  - intros value H. now apply or_zero_zero.
  - intros value H. now apply or_zero_truthy.
Qed.

End Loading.

(** ** Device lookup *)

Section Lookup.
Context {M : MomentLib}.

Lemma eqb_nan_l (x : JS.number) : JS.strict_eq nan x = false.
Proof. unfold JS.strict_eq. rewrite FloatAxioms.eqb_spec. reflexivity. Qed.

Lemma eqb_nan_r (x : JS.number) : JS.strict_eq x nan = false.
Proof.
  unfold JS.strict_eq. rewrite FloatAxioms.eqb_spec. unfold SFeqb, SFcompare.
  destruct (Prim2SF x) as [ | | | [] ? ?]; reflexivity.
Qed.

Lemma digit_code (c : ascii) : JS.is_digit c = true -> 48 <= JS.code c <= 57.
Proof. unfold JS.is_digit. rewrite andb_true_iff, !Z.leb_le. tauto. Qed.

Lemma digit_not_space (c : ascii) : JS.is_digit c = true -> JS.is_white_space c = false.
Proof.
  intros H%digit_code. unfold JS.is_white_space. cbv zeta.
  repeat (rewrite (proj2 (Z.eqb_neq _ _)) by lia). reflexivity.
Qed.

Lemma digit_not_char (c k : ascii) :
  JS.is_digit c = true -> JS.is_digit k = false -> Ascii.eqb c k = false.
Proof.
  intros Hc Hk. destruct (Ascii.eqb_spec c k) as [-> | _]; [congruence | reflexivity].
Qed.

Lemma digit_value_digit (c : ascii) :
  JS.is_digit c = true ->
  JS.digit_value c = Some (JS.code c - 48) /\ (JS.code c - 48 <? 10) = true.
Proof.
  intros H. unfold JS.digit_value. cbv zeta. fold (JS.is_digit c). rewrite H.
  apply digit_code in H. split; [reflexivity | apply Z.ltb_lt; lia].
Qed.

Lemma digit_value_other (c : ascii) (v : Z) :
  JS.is_digit c = false -> JS.digit_value c = Some v -> (v <? 10) = false.
Proof.
  unfold JS.digit_value. cbv zeta. fold (JS.is_digit c). intros ->.
  destruct ((97 <=? JS.code c) && (JS.code c <=? 102)) eqn:A.
  - apply andb_true_iff in A as [A _]. apply Z.leb_le in A.
    intros [= <-]. apply Z.ltb_ge. lia.
  - destruct ((65 <=? JS.code c) && (JS.code c <=? 70)) eqn:B; [|discriminate].
    apply andb_true_iff in B as [B _]. apply Z.leb_le in B.
    intros [= <-]. apply Z.ltb_ge. lia.
Qed.

Lemma span_no_digit (s : string) :
  starts_with_digit s = false -> JS.span_digits 10 s = ([], s).
Proof.
  destruct s as [|c r]; [reflexivity|]. cbn [starts_with_digit JS.span_digits]. intros H.
  destruct (JS.digit_value c) as [v|] eqn:E; [|reflexivity].
  now rewrite (digit_value_other c v H E).
Qed.

Lemma span_digits_app (ds rest : string) :
  all_digits ds = true -> starts_with_digit rest = false ->
  JS.span_digits 10 (ds ++ rest) = (fst (JS.span_digits 10 ds), rest).
Proof.
  intros Hds Hr. induction ds as [|c ds IH]; cbn [append].
  - now rewrite span_no_digit.
  - cbn [all_digits] in Hds. apply andb_true_iff in Hds as [Hc Hds].
    cbn [JS.span_digits]. destruct (digit_value_digit c Hc) as [-> ->].
    rewrite (IH Hds). destruct (JS.span_digits 10 ds). reflexivity.
Qed.

Lemma read_radix_decimal (s : string) : JS.hex_prefix s = false -> JS.read_radix s = (10, s).
Proof.
  unfold JS.hex_prefix, JS.read_radix. destruct s as [|c [|x r]]; try reflexivity. now intros ->.
Qed.

Lemma hex_prefix_digits (ds : string) : all_digits ds = true -> JS.hex_prefix ds = false.
Proof.
  destruct ds as [|c [|x r]]; try reflexivity. unfold JS.hex_prefix. cbn [all_digits].
  rewrite !andb_true_iff. intros (_ & Hx & _).
  rewrite !(digit_not_char x) by (exact Hx || reflexivity). apply andb_false_r.
Qed.

Lemma parseInt_digits_then (ds rest : string) :
  ds <> "" -> all_digits ds = true -> starts_with_digit rest = false ->
  JS.hex_prefix (ds ++ rest) = false ->
  JS.parseInt (ds ++ rest) = JS.parseInt ds.
Proof.
  intros Hne Hds Hr Hx. destruct ds as [|c ds]; [congruence|].
  assert (Hc : JS.is_digit c = true) by (cbn in Hds; now apply andb_true_iff in Hds).
  unfold JS.parseInt. cbn [append JS.trim_start]. rewrite (digit_not_space c Hc).
  unfold JS.read_sign. rewrite !(digit_not_char c) by (exact Hc || reflexivity).
  change (String c (ds ++ rest)) with (String c ds ++ rest)%string.
  rewrite (read_radix_decimal _ Hx), (read_radix_decimal _ (hex_prefix_digits _ Hds)).
  now rewrite (span_digits_app _ _ Hds Hr).
Qed.

Lemma parseInt_no_digit (s : string) :
  starts_with_digit (snd (JS.read_sign (JS.trim_start s))) = false ->
  JS.parseInt s = nan.
Proof.
  unfold JS.parseInt. destruct (JS.read_sign (JS.trim_start s)) as [neg s1]. cbn [snd].
  intros H.
  assert (X : JS.hex_prefix s1 = false).
  { destruct s1 as [|c [|x r]]; try reflexivity. cbn [starts_with_digit] in H.
    unfold JS.hex_prefix.
    destruct (Ascii.eqb_spec c "0") as [-> | _]; [discriminate H | reflexivity]. }
  rewrite (read_radix_decimal _ X). now rewrite span_no_digit.
Qed.

Lemma find_device_not_nan (devs : list Device) (dId : string) (d : Device) :
  find_device devs dId = Some d -> id d <> nan.
Proof.
  unfold find_device. intros H%find_some. destruct H as [_ H]. intros E.
  rewrite E, eqb_nan_l in H. discriminate.
Qed.

Lemma find_device_nan (devs : list Device) (dId : string) :
  JS.parseInt dId = nan -> find_device devs dId = None.
Proof.
  unfold find_device. intros ->. induction devs as [|d devs IH]; [reflexivity|].
  cbn [find]. now rewrite eqb_nan_r.
Qed.

(** C9, as the code has it: the lookup compares the stored id with
    [parseInt(deviceId)].  A deviceId made of decimal digits followed by a
    remainder that starts with no digit is looked up as its digits alone, so
    "1abc" is looked up as 1 (unless the whole starts with [0x]).  When
    [parseInt(deviceId)] is NaN, as for a deviceId that does not start with a
    digit once leading white space and one sign are removed, no device
    matches and the answer is 404, the three parameters being present.  A
    device row whose id was not numeric is stored with id NaN and is never
    the device found. *)
Theorem lookup_by_parseInt :
  (forall devs ds rest,
     ds <> "" -> all_digits ds = true -> starts_with_digit rest = false ->
     JS.hex_prefix (ds ++ rest) = false ->
     JS.parseInt (ds ++ rest) = JS.parseInt ds /\
     find_device devs (ds ++ rest) = find_device devs ds) /\
  JS.parseInt "1abc" = 1%float /\
  (forall st dId sdt edt,
     dId <> "" -> sdt <> "" -> edt <> "" -> JS.parseInt dId = nan ->
     savings_handler st (request dId sdt edt) =
     Sent 404 (VObj [("error", VStr "Device not found")])) /\
  (forall dId,
     starts_with_digit (snd (JS.read_sign (JS.trim_start dId))) = false ->
     JS.parseInt dId = nan) /\
  (forall row, JS.parseInt (clean (row_id row)) = nan -> id (loadDevice row) = nan) /\
  (forall devs dId d, find_device devs dId = Some d -> id d <> nan).
Proof.
  repeat split.
  - now apply parseInt_digits_then.
  - unfold find_device. now rewrite parseInt_digits_then.
  - intros st dId sdt edt Hd Hs He Hn. unfold savings_handler, request.
    cbn [deviceId startDateTime endDateTime].
    rewrite !truthy_str_nonempty by assumption. cbn [negb orb].
    now rewrite find_device_nan.
  - exact parseInt_no_digit.
  - intros row H. exact H.
  - intros devs dId d. apply find_device_not_nan.
Qed.

End Lookup.

(** ** The monthly rollup and the reading of record timestamps *)

Section Monthly.
Context {M : MomentLib}.

Lemma normalize_strict (ts : string) (t : Z) :
  parse_iso_strict ts = Some t -> m_value (normalize ts) = Some t.
Proof.
  intros H. unfold normalize, moment_iso_strict, isValid. cbn [m_value].
  rewrite H. reflexivity.
Qed.

Lemma normalize_cascade (ts : string) :
  m_value (normalize ts) =
  match parse_iso_strict ts with
  | Some t => Some t
  | None => match parse_default ts with
            | Some t => Some t
            | None => parse_utc ts
            end
  end.
Proof.
  unfold normalize, moment_iso_strict, moment_default, moment_utc, isValid. cbn [m_value].
  destruct (parse_iso_strict ts); cbn [negb m_value]; [reflexivity|].
  destruct (parse_default ts); reflexivity.
Qed.

Lemma isBetween_values (m start1 end1 start2 end2 : moment) :
  m_value start1 = m_value start2 -> m_value end1 = m_value end2 ->
  isBetween m start1 end1 = isBetween m start2 end2.
Proof.
  intros Hs He. unfold isBetween, isValid, isBefore, isAfter. now rewrite Hs, He.
Qed.

(** C3, as the code has it: a record's [device_timestamp] is stored as text
    and given a time only when a query is answered, by the normalizer alone:
    the strict ISO-8601 parse, else the library's default parse, else the
    parse as UTC, none of which is given the device's timezone.  The zone of
    the queried device enters the range test only through the instants of
    the start and of the end: two requests whose start and whose end denote
    the same instants, in whatever zones, select the same records. *)
Theorem record_time_from_normalizer savings dId sdt1 edt1 zone1 sdt2 edt2 zone2 :
  parse_tz sdt1 zone1 = parse_tz sdt2 zone2 ->
  parse_tz edt1 zone1 = parse_tz edt2 zone2 ->
  filteredData savings dId (moment_tz sdt1 zone1) (moment_tz edt1 zone1) =
  filteredData savings dId (moment_tz sdt2 zone2) (moment_tz edt2 zone2) /\
  (forall row, device_timestamp (loadSaving row) = clean (row_device_timestamp row)) /\
  (forall ts,
     m_value (normalize ts) =
     match parse_iso_strict ts with
     | Some t => Some t
     | None => match parse_default ts with
               | Some t => Some t
               | None => parse_utc ts
               end
     end).
Proof.
  intros Hs He. split; [|split; [reflexivity | exact normalize_cascade]].
  unfold filteredData. f_equal. apply filter_ext. intros item. unfold in_range.
  destruct (negb _); [reflexivity|]. now apply isBetween_values.
Qed.

Lemma same_month_on_returned savings dId start end_ (s e : Z) lastMonthStr (r : Returned) :
  (forall md t, month_start md t <= t) ->
  m_value start = Some s -> m_value end_ = Some e ->
  In r (filteredData savings dId start end_) -> strict_iso r ->
  same_month_not_after lastMonthStr end_ r = String.eqb (server_local_month r) lastMonthStr.
Proof.
  intros Hle Hs He Hin Hv. unfold same_month_not_after, server_local_month. cbv zeta.
  apply in_filteredData in Hin as (_ & _ & _ & Hb).
  apply (isBetween_spec _ _ _ s e Hs He) in Hb as (t & Ht & Hr).
  unfold strict_iso, isValid, moment_iso_strict in Hv. cbn [m_value] in Hv.
  destruct (parse_iso_strict (device_timestamp r)) as [t'|] eqn:P; [|discriminate].
  rewrite (normalize_strict _ _ P) in Ht. injection Ht as ->.
  unfold startOf_month, moment_iso_strict. cbn [m_value m_mode]. rewrite P.
  unfold isSameOrBefore, isSame, isBefore. cbn [m_value]. rewrite He.
  specialize (Hle Local t).
  replace ((month_start Local t =? e) || (month_start Local t <? e)) with true;
    [apply andb_true_r|].
  symmetry. apply orb_true_iff.
  destruct (Z.eq_dec (month_start Local t) e) as [-> | N];
    [left; apply Z.eqb_refl | right; apply Z.ltb_lt; lia].
Qed.

(** C2, as the code has it: on a valid query over a loaded store in which
    the strict ISO-8601 parse of every returned record's timestamp is valid,
    [lastMonth] is the year-month, in the device's zone, of the end datetime;
    the monthly subset is made of the returned records whose timestamp,
    displayed in the server's local time, is in that year-month (every
    returned record is already not after the end); [monthlyCarbon] is the
    subset's sum of [carbon_saved] divided by 1000 and [monthlyFuel] its sum
    of [fueld_saved]; both are 0 when the subset is empty. *)
Theorem monthly_rollup files dId sdt edt dev s e :
  let st := loadData files in
  valid_query st dId sdt edt dev s e ->
  (forall md t, month_start md t <= t) ->
  let zone := timezone dev in
  let returned :=
    filteredData (savingsData st) dId (moment_tz sdt zone) (moment_tz edt zone) in
  (forall r, In r returned -> strict_iso r) ->
  let lastMonthStr := year_month (Zone zone) (month_start (Zone zone) e) in
  let subset :=
    filter (fun r => String.eqb (server_local_month r) lastMonthStr) returned in
  exists totals,
    savings_handler st (request dId sdt edt) = Sent 200 (json_ok returned totals) /\
    lastMonth totals = lastMonthStr /\
    monthlyCarbon totals =
      (sum (map (fun r : Returned => carbon_saved r) subset) / 1000)%float /\
    monthlyFuel totals = sum (map (fun r : Returned => fueld_saved r) subset) /\
    (subset = [] -> monthlyCarbon totals = 0%float /\ monthlyFuel totals = 0%float).
Proof.
  intros st V Hle zone returned Hv lms subset.
  assert (Hs : m_value (moment_tz sdt zone) = Some s) by apply V.
  assert (He : m_value (moment_tz edt zone) = Some e) by apply V.
  assert (L : lastMonthStr edt zone = lms).
  { unfold lastMonthStr, format_YYYY_MM, startOf_month. rewrite He. reflexivity. }
  assert (F : filter (same_month_not_after lms (moment_tz edt zone)) returned = subset).
  { apply filter_ext_in. intros r Hr.
    exact (same_month_on_returned _ _ _ _ s e lms r Hle Hs He Hr (Hv r Hr)). }
  assert (S : forall r, In r subset ->
            JS.or_zero (carbon_saved r) = carbon_saved r /\
            JS.or_zero (fueld_saved r) = fueld_saved r).
  { intros r Hr. apply filter_In in Hr as [Hr _].
    apply in_filteredData in Hr as (_ & Hin & _). apply (loaded_saved_stable files), Hin. }
  eexists. split; [exact (handler_valid_sent _ _ _ _ _ _ _ V Hv)|].
  fold zone returned. rewrite L, F. unfold totals_of.
  destruct subset as [|r0 l] eqn:E.
  - cbn. repeat split; reflexivity.
  - replace (0 <? Z.of_nat (length (r0 :: l))) with true
      by (symmetry; apply Z.ltb_lt; cbn [length]; lia).
    cbn [lastMonth monthlyCarbon monthlyFuel].
    rewrite !reduce_sum_is_sum by (intros; now apply S).
    repeat split; try reflexivity; discriminate.
Qed.

End Monthly.

(** ** The executable library *)

Lemma civil_day_positive (z : Z) : let '(_, _, d) := FixedOffset.civil_from_days z in 1 <= d.
Proof.
  unfold FixedOffset.civil_from_days. cbv zeta.
  match goal with |- context [(5 * ?doy + 2) / 153] => generalize doy end.
  intros doy.
  assert ((153 * ((5 * doy + 2) / 153) + 2) / 5 <= doy) by (Z.div_mod_to_equations; lia).
  lia.
Qed.

Lemma fixed_month_start_le (offset t : Z) : FixedOffset.fixed_month_start offset t <= t.
Proof.
  unfold FixedOffset.fixed_month_start. cbv zeta.
  set (days := (t + offset * FixedOffset.ms_per_minute) / FixedOffset.ms_per_day).
  pose proof (civil_day_positive days) as D.
  destruct (FixedOffset.civil_from_days days) as [[y m] d].
  assert (days * FixedOffset.ms_per_day <= t + offset * FixedOffset.ms_per_minute).
  { unfold days, FixedOffset.ms_per_day. Z.div_mod_to_equations. lia. }
  unfold FixedOffset.ms_per_day in *. nia.
Qed.

Lemma lib_month_start_le (server_offset : Z) (md : mode) (t : Z) :
  @month_start (FixedOffset.lib server_offset) md t <= t.
Proof. apply fixed_month_start_le. Qed.

(** ** The properties on the sample data *)

Section OnSample.
#[local] Existing Instance Sample.lib.

Lemma june_query_valid :
  valid_query (Sample.store Sample.june_rows) "1" "2023-06-01T00:00" "2023-06-30T23:59"
    Sample.device Sample.june_start Sample.june_end.
Proof. repeat split; try discriminate; vm_compute; reflexivity. Qed.

Lemma june_returned_strict (r : Returned) :
  In r (filteredData (savingsData (Sample.store Sample.june_rows)) "1"
          (moment_tz "2023-06-01T00:00" "Asia/Kolkata")
          (moment_tz "2023-06-30T23:59" "Asia/Kolkata")) ->
  strict_iso r.
Proof. intros H. vm_compute in H. destruct H as [<- | []]. vm_compute. reflexivity. Qed.

(** The example of the specification: one record returned, totalCarbon 0.5,
    totalFuel 10, lastMonth 2023-06, monthlyCarbon 0.5, monthlyFuel 10. *)
Example specification_example :
  savings_handler (Sample.store Sample.june_rows)
    (request "1" "2023-06-01T00:00" "2023-06-30T23:59") =
  Sent 200
    (json_ok [annotate (loadSaving Sample.june_row)]
       {| totalCarbon := 0.5%float; totalFuel := 10%float;
          monthlyCarbon := 0.5%float; monthlyFuel := 10%float;
          lastMonth := "2023-06" |}).
Proof. vm_compute. reflexivity. Qed.

(** C1, where the code departs from it: a record whose timestamp is not
    ISO-8601 but is read by the default parse passes the range filter, and
    the monthly filter then assigns to its [const itemDate]: the exception
    leaves the handler and no response is built. *)
Theorem monthly_filter_aborts_query :
  savings_handler (Sample.store Sample.slash_rows)
    (request "1" "2023-06-01T00:00" "2023-06-30T23:59") =
  Thrown "TypeError: Assignment to constant variable.".
Proof. vm_compute. reflexivity. Qed.

(** C2 as stated fails: the record at 20:00 UTC on 30 June is at 01:30 on
    1 July in the device's zone, the month of the end datetime, and is not
    after the end, so it is in the monthly subset of the specification; the
    handler, which takes the record's month in the server's local time,
    leaves it out and reports monthly sums of 0. *)
Lemma monthly_subset_not_in_device_zone :
  monthly_subset_device_zone "Asia/Kolkata" (moment_tz "2023-07-10T00:00" "Asia/Kolkata")
    (filteredData (savingsData (Sample.store Sample.month_end_rows)) "1"
       (moment_tz "2023-06-01T00:00" "Asia/Kolkata")
       (moment_tz "2023-07-10T00:00" "Asia/Kolkata")) =
  [annotate (loadSaving (Sample.saving "2023-06-30T20:00:00Z" "500" "10"))] /\
  savings_handler (Sample.store Sample.month_end_rows)
    (request "1" "2023-06-01T00:00" "2023-07-10T00:00") =
  Sent 200
    (json_ok [annotate (loadSaving (Sample.saving "2023-06-30T20:00:00Z" "500" "10"))]
       {| totalCarbon := 0.5%float; totalFuel := 10%float;
          monthlyCarbon := 0%float; monthlyFuel := 0%float;
          lastMonth := "2023-07" |}).
Proof. split; vm_compute; reflexivity. Qed.

(** C3 as stated fails: read in the device's zone, the record at 10:00 with
    no offset is between 09:00 and 11:00 of the same day in that zone; the
    handler reads it in the server's local time and returns no record. *)
Lemma record_not_read_in_device_zone :
  in_range_device_zone "Asia/Kolkata"
    (moment_tz "2023-06-15T09:00" "Asia/Kolkata")
    (moment_tz "2023-06-15T11:00" "Asia/Kolkata")
    (loadSaving (Sample.saving "2023-06-15T10:00:00" "500" "10")) = true /\
  savings_handler (Sample.store Sample.naive_rows)
    (request "1" "2023-06-15T09:00" "2023-06-15T11:00") =
  Sent 200
    (json_ok []
       {| totalCarbon := 0%float; totalFuel := 0%float;
          monthlyCarbon := 0%float; monthlyFuel := 0%float;
          lastMonth := "2023-06" |}).
Proof. split; vm_compute; reflexivity. Qed.

(** C6 as stated fails: a negative value is stored negative and an infinite
    one infinite. *)
Lemma loaded_negative_and_infinite :
  carbon_saved (loadSaving Sample.negative_row) = (-5)%float /\
  fueld_saved (loadSaving Sample.negative_row) = infinity /\
  ~ finite_nonnegative (carbon_saved (loadSaving Sample.negative_row)) /\
  ~ finite_nonnegative (fueld_saved (loadSaving Sample.negative_row)).
Proof.
  repeat split; try (vm_compute; reflexivity); intros [F N]; vm_compute in F, N; discriminate.
Qed.

(** C9 as stated fails: "+1" starts with no digit, and it finds device 1. *)
Lemma signed_device_id_matches :
  leading_digits "+1" = [] /\
  find_device (devices (Sample.store Sample.june_rows)) "+1" = Some Sample.device /\
  savings_handler (Sample.store Sample.june_rows)
    (request "+1" "2023-06-01T00:00" "2023-06-30T23:59") =
  Sent 200
    (json_ok [annotate (loadSaving Sample.june_row)]
       {| totalCarbon := 0.5%float; totalFuel := 10%float;
          monthlyCarbon := 0.5%float; monthlyFuel := 10%float;
          lastMonth := "2023-06" |}).
Proof. repeat split; vm_compute; reflexivity. Qed.

Lemma missing_parameter_400_witness :
  missing (@None string) /\
  savings_handler (Sample.store Sample.june_rows)
    {| deviceId := None; startDateTime := Some "2023-06-01T00:00";
       endDateTime := Some "2023-06-30T23:59" |} =
  Sent 400 (VObj [("error", VStr "deviceId, startDateTime, and endDateTime are required")]).
Proof.
  assert (H : missing (@None string)) by (left; reflexivity).
  split; [exact H|]. apply missing_parameter_400. left. exact H.
Defined.

Lemma resolveTimezone_known_witness :
  tz_zone "Asia/Kolkata" = true /\
  resolveTimezone "Mars/Phobos" = "Asia/Kolkata" /\
  resolveTimezone "Asia/Tokyo" = "Asia/Tokyo".
Proof.
  assert (H : tz_zone "Asia/Kolkata" = true) by reflexivity.
  split; [exact H|].
  destruct (resolveTimezone_known H) as (K & D & _).
  split; [apply D | apply K]; reflexivity.
Defined.

Lemma reversed_range_is_empty_witness :
  valid_query (Sample.store Sample.june_rows) "1" "2023-06-30T23:59" "2023-06-01T00:00"
    Sample.device Sample.june_end Sample.june_start /\
  Sample.june_start < Sample.june_end /\
  savings_handler (Sample.store Sample.june_rows)
    (request "1" "2023-06-30T23:59" "2023-06-01T00:00") =
  Sent 200
    (json_ok []
       {| totalCarbon := 0%float; totalFuel := 0%float;
          monthlyCarbon := 0%float; monthlyFuel := 0%float;
          lastMonth := "2023-06" |}).
Proof.
  assert (V : valid_query (Sample.store Sample.june_rows) "1" "2023-06-30T23:59"
                "2023-06-01T00:00" Sample.device Sample.june_end Sample.june_start)
    by (repeat split; try discriminate; vm_compute; reflexivity).
  assert (L : Sample.june_start < Sample.june_end) by (vm_compute; reflexivity).
  split; [exact V|]. split; [exact L|].
  rewrite (reversed_range_is_empty _ _ _ _ _ _ _ V L). vm_compute. reflexivity.
Defined.

Lemma range_filter_inclusive_witness :
  valid_query (Sample.store Sample.june_rows) "1" "2023-06-01T00:00" "2023-06-30T23:59"
    Sample.device Sample.june_start Sample.june_end /\
  In (annotate (loadSaving Sample.june_row))
     (filteredData (savingsData (Sample.store Sample.june_rows)) "1"
        (moment_tz "2023-06-01T00:00" "Asia/Kolkata")
        (moment_tz "2023-06-30T23:59" "Asia/Kolkata")).
Proof.
  split; [exact june_query_valid|].
  apply (proj1 (range_filter_inclusive _ _ _ _ _ _ _ june_query_valid)
           (loadSaving Sample.june_row)).
  - left. reflexivity.
  - vm_compute. reflexivity.
  - exists Sample.june_record_instant. split; [vm_compute; reflexivity|].
    split; vm_compute; discriminate.
Defined.

Lemma totals_are_sums_witness :
  valid_query (loadData (Some (Sample.device_rows, Sample.june_rows))) "1"
    "2023-06-01T00:00" "2023-06-30T23:59" Sample.device Sample.june_start Sample.june_end /\
  totalCarbon
    (totals_of
       (filteredData (savingsData (Sample.store Sample.june_rows)) "1"
          (moment_tz "2023-06-01T00:00" "Asia/Kolkata")
          (moment_tz "2023-06-30T23:59" "Asia/Kolkata")) [] "") = 0.5%float.
Proof.
  split; [exact june_query_valid|].
  etransitivity;
    [exact (proj1 (proj1 (totals_are_sums _ _ _ _ _ _ _ june_query_valid) [] ""))|].
  vm_compute. reflexivity.
Defined.

Lemma monthly_rollup_witness :
  valid_query (loadData (Some (Sample.device_rows, Sample.june_rows))) "1"
    "2023-06-01T00:00" "2023-06-30T23:59" Sample.device Sample.june_start Sample.june_end /\
  (forall md t, month_start md t <= t) /\
  exists totals,
    savings_handler (Sample.store Sample.june_rows)
      (request "1" "2023-06-01T00:00" "2023-06-30T23:59") =
    Sent 200 (json_ok [annotate (loadSaving Sample.june_row)] totals) /\
    lastMonth totals = "2023-06" /\
    monthlyCarbon totals = 0.5%float /\ monthlyFuel totals = 10%float.
Proof.
  split; [exact june_query_valid|]. split; [exact (lib_month_start_le 0)|].
  destruct (monthly_rollup _ _ _ _ _ _ _ june_query_valid (lib_month_start_le 0)
              june_returned_strict) as (totals & H & L & C & F & _).
  exists totals. split; [exact H|]. split; [exact L|]. split; [exact C | exact F].
Defined.

Lemma record_time_from_normalizer_witness :
  parse_tz "2023-06-01T00:00" "Asia/Kolkata" = parse_tz "2023-05-31T18:30" "UTC" /\
  parse_tz "2023-06-30T23:59" "Asia/Kolkata" = parse_tz "2023-06-30T18:29" "UTC" /\
  filteredData (savingsData (Sample.store Sample.june_rows)) "1"
    (moment_tz "2023-06-01T00:00" "Asia/Kolkata")
    (moment_tz "2023-06-30T23:59" "Asia/Kolkata") =
  filteredData (savingsData (Sample.store Sample.june_rows)) "1"
    (moment_tz "2023-05-31T18:30" "UTC")
    (moment_tz "2023-06-30T18:29" "UTC").
Proof.
  split; [reflexivity|]. split; [reflexivity|].
  apply (record_time_from_normalizer (savingsData (Sample.store Sample.june_rows)) "1"
           "2023-06-01T00:00" "2023-06-30T23:59" "Asia/Kolkata"
           "2023-05-31T18:30" "2023-06-30T18:29" "UTC"); reflexivity.
Defined.

Lemma loaded_saved_are_numbers_witness :
  In (loadSaving Sample.negative_row)
     (savingsData (loadData (Some (Sample.device_rows, [Sample.negative_row])))) /\
  is_nan (carbon_saved (loadSaving Sample.negative_row)) = false /\
  transform_saved "n/a" = 0%float.
Proof.
  assert (H : In (loadSaving Sample.negative_row)
                (savingsData (loadData (Some (Sample.device_rows, [Sample.negative_row])))))
    by (left; reflexivity).
  split; [exact H|].
  destruct (loaded_saved_are_numbers _ _ H) as ((C & _) & Z0 & _).
  split; [exact C | apply Z0; reflexivity].
Defined.

Lemma lookup_by_parseInt_witness :
  JS.parseInt "1abc" = JS.parseInt "1" /\
  savings_handler (Sample.store Sample.june_rows)
    (request "abc" "2023-06-01T00:00" "2023-06-30T23:59") =
  Sent 404 (VObj [("error", VStr "Device not found")]).
Proof.
  destruct lookup_by_parseInt as (T & _ & N & _).
  split.
  - apply (T [] "1" "abc"); (discriminate || reflexivity).
  - apply N; (discriminate || reflexivity).
Defined.

End OnSample.

(** ** Further properties of the savings handler *)

Section Outcomes.
Context {M : MomentLib}.

(** With the three parameters present, the handler is its part after the
    first check. *)
Lemma handler_present st dId sdt edt :
  dId <> "" -> sdt <> "" -> edt <> "" ->
  savings_handler st (request dId sdt edt) =
  match find_device (devices st) dId with
  | None => Sent 404 body_not_found
  | Some device =>
      let start := moment_tz sdt (timezone device) in
      let end_ := moment_tz edt (timezone device) in
      let filtered := filteredData (savingsData st) dId start end_ in
      if negb (isValid start) || negb (isValid end_) then Sent 400 body_invalid_range
      else
        match lastMonthData filtered edt (timezone device) end_ with
        | Throw err => Thrown err
        | Normal lmd =>
            Sent 200 (json_ok filtered
                        (totals_of filtered lmd (lastMonthStr edt (timezone device))))
        end
  end.
Proof.
  intros Hd Hs He. unfold savings_handler, request.
  cbn [deviceId startDateTime endDateTime].
  rewrite !truthy_str_nonempty by assumption. reflexivity.
Qed.

Lemma query_missing_or_present (q : Query) :
  (missing (deviceId q) \/ missing (startDateTime q) \/ missing (endDateTime q)) \/
  exists dId sdt edt,
    q = request dId sdt edt /\ dId <> "" /\ sdt <> "" /\ edt <> "".
Proof.
  destruct q as [[[|a d]|] [[|b s]|] [[|c e]|]]; unfold missing; cbn;
    try (left; intuition congruence).
  right. exists (String a d), (String b s), (String c e). repeat split; discriminate.
Qed.

Lemma lastMonthData_cases filtered edt zone end_ :
  lastMonthData filtered edt zone end_ = Throw const_assignment \/
  exists lmd, lastMonthData filtered edt zone end_ = Normal lmd.
Proof.
  destruct (strict_iso_all_or_not filtered) as [G | B].
  - right. eexists. now apply lastMonthData_normal.
  - left. now apply lastMonthData_throw.
Qed.

Lemma find_device_none (devs : list Device) (dId : string) :
  find_device devs dId = None <->
  forall d, In d devs -> JS.strict_eq (id d) (JS.parseInt dId) = false.
Proof.
  unfold find_device. split.
  - intros H d Hd. exact (find_none _ _ H d Hd).
  - induction devs as [|d devs IH]; intros H; [reflexivity|]. cbn [find].
    rewrite (H d (or_introl eq_refl)). apply IH. intros; apply H; now right.
Qed.

(** X1: with the three parameters present, the answer is 404 "Device not
    found" exactly when no loaded device has the id [parseInt(deviceId)];
    the datetimes are not looked at, so this holds also when they do not
    parse. *)
Theorem unknown_device_404 st dId sdt edt :
  dId <> "" -> sdt <> "" -> edt <> "" ->
  (savings_handler st (request dId sdt edt) =
   Sent 404 (VObj [("error", VStr "Device not found")]) <->
   forall d, In d (devices st) -> JS.strict_eq (id d) (JS.parseInt dId) = false).
Proof.
  intros Hd Hs He. rewrite (handler_present _ _ _ _ Hd Hs He), <- find_device_none.
  destruct (find_device (devices st) dId) as [dev|]; [|tauto]. cbv zeta.
  split; [|discriminate]. intros H. exfalso.
  destruct (negb _ || negb _); [discriminate|].
  destruct (lastMonthData _ _ _ _); discriminate.
Qed.

(** X2: when the device is found, the answer is 400 "Invalid startDateTime or
    endDateTime format" exactly when the start or the end does not parse in
    the device's zone; the savings records play no part in it. *)
Theorem invalid_range_400 st dId sdt edt dev :
  dId <> "" -> sdt <> "" -> edt <> "" ->
  find_device (devices st) dId = Some dev ->
  (savings_handler st (request dId sdt edt) =
   Sent 400 (VObj [("error", VStr "Invalid startDateTime or endDateTime format")]) <->
   parse_tz sdt (timezone dev) = None \/ parse_tz edt (timezone dev) = None).
Proof.
  intros Hd Hs He Hf. rewrite (handler_present _ _ _ _ Hd Hs He), Hf. cbv zeta.
  unfold isValid, moment_tz. cbn [m_value].
  destruct (parse_tz sdt (timezone dev)) as [s|], (parse_tz edt (timezone dev)) as [e|];
    cbn [negb orb]; try (split; [auto | reflexivity]).
  split; [|intros [H | H]; discriminate].
  destruct (lastMonthData _ _ _ _); discriminate.
Qed.

(** X3: every run of the handler ends in one of five ways: one of the two
    400 bodies, the 404 body, a 200 response whose records are stored
    records of the device, or the TypeError of the monthly filter.  No other
    status is sent and no other exception leaves the handler. *)
Theorem handler_outcomes st q :
  savings_handler st q = Sent 400 body_missing \/
  savings_handler st q = Sent 404 body_not_found \/
  savings_handler st q = Sent 400 body_invalid_range \/
  savings_handler st q = Thrown const_assignment \/
  exists data totals,
    savings_handler st q = Sent 200 (json_ok data totals) /\
    forall r, In r data -> In (source r) (savingsData st).
Proof.
  destruct (query_missing_or_present q) as [Hm | (dId & sdt & edt & -> & Hd & Hs & He)].
  - left. unfold body_missing. revert Hm. unfold missing, savings_handler.
    destruct q as [d a b]. cbn [deviceId startDateTime endDateTime]. intros H.
    destruct d as [[|? ?]|], a as [[|? ?]|], b as [[|? ?]|]; try reflexivity;
      exfalso; destruct H as [[H|H] | [[H|H] | [H|H]]]; discriminate.
  - rewrite (handler_present _ _ _ _ Hd Hs He).
    destruct (find_device (devices st) dId) as [dev|]; [|auto]. cbv zeta.
    destruct (negb _ || negb _); [auto|].
    destruct (lastMonthData_cases
                (filteredData (savingsData st) dId (moment_tz sdt (timezone dev))
                   (moment_tz edt (timezone dev)))
                edt (timezone dev) (moment_tz edt (timezone dev))) as [-> | (lmd & ->)];
      [auto|].
    do 4 right. eexists _, _. split; [reflexivity|].
    intros r Hr. apply in_filteredData in Hr. tauto.
Qed.

(** X4: on a valid query the handler throws exactly when one of the records
    in range has a timestamp whose strict ISO-8601 parse is invalid, and it
    answers 200 exactly when there is none. *)
Theorem throws_iff_non_iso_in_range st dId sdt edt dev s e :
  valid_query st dId sdt edt dev s e ->
  let returned :=
    filteredData (savingsData st) dId (moment_tz sdt (timezone dev))
      (moment_tz edt (timezone dev)) in
  (savings_handler st (request dId sdt edt) = Thrown const_assignment <->
   exists r, In r returned /\ ~ strict_iso r) /\
  ((exists body, savings_handler st (request dId sdt edt) = Sent 200 body) <->
   forall r, In r returned -> strict_iso r).
Proof.
  intros V returned.
  destruct (strict_iso_all_or_not returned) as [G | B].
  - rewrite (handler_valid_sent _ _ _ _ _ _ _ V G). split; split.
    + discriminate.
    + intros (r & Hr & N). destruct (N (G r Hr)).
    + intros _. exact G.
    + intros _. eexists. reflexivity.
  - rewrite (handler_valid_thrown _ _ _ _ _ _ _ V B). split; split.
    + intros _. exact B.
    + reflexivity.
    + intros (body & H). discriminate.
    + intros G. destruct B as (r & Hr & N). destruct (N (G r Hr)).
Qed.

End Outcomes.

(** ** What the answer depends on *)

Section Dependence.
Context {M : MomentLib}.

Lemma handler_same_filtered st1 st2 dId sdt edt :
  devices st1 = devices st2 ->
  (forall start end_,
     filteredData (savingsData st1) dId start end_ =
     filteredData (savingsData st2) dId start end_) ->
  savings_handler st1 (request dId sdt edt) = savings_handler st2 (request dId sdt edt).
Proof.
  intros Hd Hf. unfold savings_handler, request.
  cbn [deviceId startDateTime endDateTime]. rewrite Hd.
  destruct (negb _ || negb _ || negb _); [reflexivity|].
  destruct (find_device (devices st2) dId) as [dev|]; [|reflexivity].
  cbv zeta. now rewrite Hf.
Qed.

Lemma handler_same_device st1 st2 dId sdt edt :
  savingsData st1 = savingsData st2 ->
  find_device (devices st1) dId = find_device (devices st2) dId ->
  savings_handler st1 (request dId sdt edt) = savings_handler st2 (request dId sdt edt).
Proof.
  intros Hs Hf. unfold savings_handler, request.
  cbn [deviceId startDateTime endDateTime]. now rewrite Hs, Hf.
Qed.

Lemma filter_filter_implied {A : Type} (p q : A -> bool) (l : list A) :
  (forall x, p x = true -> q x = true) -> filter p (filter q l) = filter p l.
Proof.
  intros H. induction l as [|x l IH]; [reflexivity|]. cbn [filter].
  destruct (q x) eqn:Q; cbn [filter].
  - now rewrite IH.
  - destruct (p x) eqn:P; [|exact IH]. rewrite (H x P) in Q. discriminate.
Qed.

Lemma in_range_readable dId start end_ item :
  in_range dId start end_ item = true -> readable item = true.
Proof.
  unfold in_range, readable, isBetween.
  destruct (negb (JS.strict_eq _ _)); [discriminate|].
  destruct (isValid (normalize (device_timestamp item))); [reflexivity | discriminate].
Qed.

Lemma in_range_same_device dId start end_ item :
  in_range dId start end_ item = true -> same_device dId item = true.
Proof.
  unfold in_range, same_device.
  destruct (JS.strict_eq _ _); [reflexivity | discriminate].
Qed.

(** X5: a record whose timestamp none of the three parsers reads is never
    returned, and it changes nothing else either: the handler gives the same
    result on the store without the unreadable records, for every query. *)
Theorem unreadable_records_ignored st q :
  (forall dId start end_ r,
     In r (filteredData (savingsData st) dId start end_) -> readable r = true) /\
  savings_handler (with_savings st (filter readable (savingsData st))) q =
  savings_handler st q.
Proof.
  split.
  - intros dId start end_ r Hr. unfold filteredData in Hr.
    apply in_map_iff in Hr as (item & <- & Hin). apply filter_In in Hin as [_ Hp].
    exact (in_range_readable _ _ _ _ Hp).
  - destruct (query_missing_or_present q) as [Hm | (dId & sdt & edt & -> & _)].
    + unfold missing, savings_handler in *. destruct q as [d a b].
      cbn [deviceId startDateTime endDateTime] in *.
      destruct d as [[|? ?]|], a as [[|? ?]|], b as [[|? ?]|]; try reflexivity;
        exfalso; destruct Hm as [[H|H] | [[H|H] | [H|H]]]; discriminate.
    + apply handler_same_filtered; [reflexivity|]. intros start end_.
      unfold filteredData, with_savings. cbn [savingsData]. f_equal.
      apply filter_filter_implied. intros x. apply in_range_readable.
Qed.

(** X6: the records of other devices play no part in a query: the handler
    gives the same result on the store reduced to the records whose
    [device_id] is [parseInt(deviceId)]. *)
Theorem other_devices_records_ignored st dId sdt edt :
  savings_handler (with_savings st (filter (same_device dId) (savingsData st)))
    (request dId sdt edt) =
  savings_handler st (request dId sdt edt).
Proof.
  apply handler_same_filtered; [reflexivity|]. intros start end_.
  unfold filteredData, with_savings. cbn [savingsData]. f_equal.
  apply filter_filter_implied. intros x. apply in_range_same_device.
Qed.

(** X7: when several loaded devices have the id of the request, the first in
    file order is the device of the query: the devices after it, whatever
    their timezone, change nothing. *)
Theorem first_matching_device_wins st before dev after dId sdt edt :
  devices st = (before ++ dev :: after)%list ->
  (forall d, In d before -> JS.strict_eq (id d) (JS.parseInt dId) = false) ->
  JS.strict_eq (id dev) (JS.parseInt dId) = true ->
  find_device (devices st) dId = Some dev /\
  savings_handler st (request dId sdt edt) =
  savings_handler (with_devices st [dev]) (request dId sdt edt).
Proof.
  intros Hst Hb Hd.
  assert (F : find_device (devices st) dId = Some dev).
  { rewrite Hst. unfold find_device. clear Hst.
    induction before as [|d before IH]; cbn [app find].
    - now rewrite Hd.
    - rewrite (Hb d (or_introl eq_refl)). apply IH. intros; apply Hb; now right. }
  split; [exact F|].
  apply handler_same_device; [reflexivity|]. rewrite F.
  unfold with_devices, find_device. cbn [devices find]. now rewrite Hd.
Qed.

(** The filter alone: every record in range for [s, e] is in range for
    [s', e'] when [s' <= s] and [e <= e']. *)
Lemma filteredData_wider savings dId start end_ start' end_' s e s' e' :
  m_value start = Some s -> m_value end_ = Some e ->
  m_value start' = Some s' -> m_value end_' = Some e' ->
  s' <= s -> e <= e' ->
  forall r, In r (filteredData savings dId start end_) ->
            In r (filteredData savings dId start' end_').
Proof.
  intros Hs He Hs' He' Ls Le r. rewrite !in_filteredData.
  rewrite (isBetween_spec _ _ _ s e Hs He), (isBetween_spec _ _ _ s' e' Hs' He').
  intros (A & B & C & t & Ht & Hr). repeat split; try assumption.
  exists t. split; [exact Ht | lia].
Qed.

(** X8: a wider range returns at least the same records.  For two valid
    queries of one device with [s' <= s] and [e <= e'], when the request for
    the wider range [s', e'] is answered 200, the request for [s, e] is
    answered 200 too, and every record of its [data] is in the [data] of the
    wider response.  (The answer to the wider request is a hypothesis: a
    record outside [s, e] whose timestamp is not strict ISO-8601 makes the
    wider request throw while the narrower one is answered.) *)
Theorem wider_range_returns_more st dId sdt edt sdt' edt' dev s e s' e' body' :
  valid_query st dId sdt edt dev s e ->
  valid_query st dId sdt' edt' dev s' e' ->
  s' <= s -> e <= e' ->
  savings_handler st (request dId sdt' edt') = Sent 200 body' ->
  let zone := timezone dev in
  let returned :=
    filteredData (savingsData st) dId (moment_tz sdt zone) (moment_tz edt zone) in
  let returned' :=
    filteredData (savingsData st) dId (moment_tz sdt' zone) (moment_tz edt' zone) in
  exists totals totals',
    savings_handler st (request dId sdt edt) = Sent 200 (json_ok returned totals) /\
    body' = json_ok returned' totals' /\
    forall r, In r returned -> In r returned'.
Proof.
  intros V V' Ls Le H zone returned returned'.
  assert (Sub : forall r, In r returned -> In r returned').
  { apply (filteredData_wider _ _ _ _ _ _ s e s' e'); try assumption;
      try apply V; apply V'. }
  destruct (strict_iso_all_or_not returned') as [G | B].
  - rewrite (handler_valid_sent _ _ _ _ _ _ _ V' G) in H. injection H as <-.
    eexists _, _. split; [|split; [reflexivity | exact Sub]].
    apply (handler_valid_sent _ _ _ _ _ _ _ V). intros r Hr. apply G, Sub, Hr.
  - rewrite (handler_valid_thrown _ _ _ _ _ _ _ V' B) in H. discriminate.
Qed.

Lemma handler_valid_empty st dId sdt edt dev s e :
  valid_query st dId sdt edt dev s e ->
  filteredData (savingsData st) dId (moment_tz sdt (timezone dev))
    (moment_tz edt (timezone dev)) = [] ->
  savings_handler st (request dId sdt edt) =
  Sent 200 (json_ok []
              (zero_totals (year_month (Zone (timezone dev))
                              (month_start (Zone (timezone dev)) e)))).
Proof.
  intros V E. rewrite (handler_valid_sent _ _ _ _ _ _ _ V); rewrite E; [|intros r []].
  destruct V as (_ & _ & _ & _ & _ & He).
  unfold totals_of, zero_totals, lastMonthStr, format_YYYY_MM, startOf_month, moment_tz.
  cbn. rewrite He. reflexivity.
Qed.

(** X9: a device that is found but has no record in the store, with two
    datetimes that parse, is answered 200 with no record, the four totals 0,
    and [lastMonth] the year-month of the end datetime. *)
Theorem device_without_records st dId sdt edt dev s e :
  valid_query st dId sdt edt dev s e ->
  (forall item, In item (savingsData st) -> same_device dId item = false) ->
  savings_handler st (request dId sdt edt) =
  Sent 200 (json_ok []
              (zero_totals (year_month (Zone (timezone dev))
                              (month_start (Zone (timezone dev)) e)))).
Proof.
  intros V H. apply (handler_valid_empty _ _ _ _ _ _ _ V).
  destruct (filteredData _ _ _ _) as [|r l] eqn:F; [reflexivity|].
  assert (Hin : In r (filteredData (savingsData st) dId (moment_tz sdt (timezone dev))
                        (moment_tz edt (timezone dev)))) by (rewrite F; now left).
  apply in_filteredData in Hin as (_ & Hs & Hd & _).
  unfold of_device in Hd. specialize (H _ Hs). unfold same_device in H. congruence.
Qed.

(** X10: when the data directory or a file cannot be read, both collections
    are empty: GET /api/devices answers an empty list and every savings
    request is answered 400 (a parameter is missing) or 404, never 200. *)
Theorem unreadable_files_serve_empty q :
  devices_handler (loadData None) = Sent 200 (VArr []) /\
  (savings_handler (loadData None) q = Sent 400 body_missing \/
   savings_handler (loadData None) q = Sent 404 body_not_found).
Proof.
  split; [reflexivity|].
  destruct (query_missing_or_present q) as [Hm | (dId & sdt & edt & -> & Hd & Hs & He)].
  - left. unfold body_missing, missing, savings_handler in *. destruct q as [d a b].
    cbn [deviceId startDateTime endDateTime] in *.
    destruct d as [[|? ?]|], a as [[|? ?]|], b as [[|? ?]|]; try reflexivity;
      exfalso; destruct Hm as [[H|H] | [[H|H] | [H|H]]]; discriminate.
  - right. now rewrite (handler_present _ _ _ _ Hd Hs He).
Qed.

(** X11: a savings row whose [device_id] is not numeric is stored with id NaN
    and is returned by no query, whatever the deviceId and the range. *)
Theorem non_numeric_device_id_never_returned row savings dId start end_ :
  JS.parseInt (clean (row_device_id row)) = nan ->
  ~ In (annotate (loadSaving row)) (filteredData savings dId start end_).
Proof.
  intros N Hin. apply in_filteredData in Hin as (_ & _ & Hd & _).
  unfold of_device in Hd. cbn [annotate source loadSaving device_id] in Hd.
  rewrite N, eqb_nan_l in Hd. discriminate.
Qed.

(** X12: when every record in range carries a strict ISO-8601 timestamp whose
    month, in the server's local time, is [lastMonth], the monthly figures
    are the totals: [monthlyCarbon = totalCarbon] and
    [monthlyFuel = totalFuel]. *)
Theorem monthly_equals_total_within_month st dId sdt edt dev s e :
  valid_query st dId sdt edt dev s e ->
  (forall md t, month_start md t <= t) ->
  let zone := timezone dev in
  let returned :=
    filteredData (savingsData st) dId (moment_tz sdt zone) (moment_tz edt zone) in
  (forall r, In r returned ->
     strict_iso r /\ server_local_month r = lastMonthStr edt zone) ->
  exists totals,
    savings_handler st (request dId sdt edt) = Sent 200 (json_ok returned totals) /\
    monthlyCarbon totals = totalCarbon totals /\
    monthlyFuel totals = totalFuel totals.
Proof.
  intros V Hle zone returned H.
  assert (Hs : m_value (moment_tz sdt zone) = Some s) by apply V.
  assert (He : m_value (moment_tz edt zone) = Some e) by apply V.
  assert (G : forall r, In r returned -> strict_iso r) by (intros r Hr; apply H, Hr).
  assert (F : filter (same_month_not_after (lastMonthStr edt zone) (moment_tz edt zone))
                returned = returned).
  { apply forallb_filter_id. apply forallb_forall. intros r Hr.
    rewrite (same_month_on_returned _ _ _ _ s e _ r Hle Hs He Hr (G r Hr)).
    rewrite (proj2 (H r Hr)). apply String.eqb_refl. }
  eexists. split; [exact (handler_valid_sent _ _ _ _ _ _ _ V G)|].
  fold zone returned. rewrite F. unfold totals_of.
  destruct returned as [|r0 l]; cbn; split; reflexivity.
Qed.

End Dependence.

(** ** The cleaning of CSV values *)

Section Cleaning.

Lemma trim_start_pad (pad s : string) :
  all_white_space pad = true -> JS.trim_start (pad ++ s) = JS.trim_start s.
Proof.
  induction pad as [|c pad IH]; cbn [all_white_space append]; [reflexivity|].
  intros [Hc Hp]%andb_true_iff. cbn [JS.trim_start]. rewrite Hc. now apply IH.
Qed.

Lemma trim_end_white (pad : string) : all_white_space pad = true -> JS.trim_end pad = "".
Proof.
  induction pad as [|c pad IH]; cbn [all_white_space]; [reflexivity|].
  intros [Hc Hp]%andb_true_iff. cbn [JS.trim_end]. now rewrite (IH Hp), Hc.
Qed.

Lemma trim_end_pad (s pad : string) :
  all_white_space pad = true -> JS.trim_end (s ++ pad) = JS.trim_end s.
Proof.
  intros Hp. induction s as [|c s IH]; cbn [append].
  - now apply trim_end_white.
  - cbn [JS.trim_end]. now rewrite IH.
Qed.

Lemma trim_end_last (s : string) (c : ascii) :
  JS.is_white_space c = false ->
  JS.trim_end (s ++ String c "") = (s ++ String c "")%string.
Proof.
  intros Hc. induction s as [|a s IH]; cbn [append JS.trim_end].
  - now rewrite Hc.
  - rewrite IH. now destruct s.
Qed.

Lemma strip_last_quote_quote (v : string) :
  JS.strip_last_quote (v ++ String JS.dquote "") = v.
Proof.
  induction v as [|a v IH]; [reflexivity|].
  cbn [append]. cbn [JS.strip_last_quote].
  destruct (v ++ String JS.dquote "")%string eqn:E; [now destruct v|].
  now rewrite IH.
Qed.

Lemma dquote_not_space : JS.is_white_space JS.dquote = false.
Proof. reflexivity. Qed.

(** X13: a CSV value between double quotes, with any white space around the
    quotes, is loaded as what stands between the quotes, unchanged: white
    space inside the quotes is kept. *)
Theorem clean_quoted_value (pad1 pad2 v : string) :
  all_white_space pad1 = true -> all_white_space pad2 = true ->
  clean (pad1 ++ quoted v ++ pad2) = v.
Proof.
  intros H1 H2. unfold clean, JS.trim.
  rewrite (trim_start_pad _ _ H1). unfold quoted. cbn [append JS.trim_start].
  rewrite dquote_not_space.
  change (String JS.dquote ((v ++ String JS.dquote "") ++ pad2))%string
    with ((String JS.dquote (v ++ String JS.dquote "")) ++ pad2)%string.
  rewrite (trim_end_pad _ _ H2).
  change (String JS.dquote (v ++ String JS.dquote ""))%string
    with ((String JS.dquote v) ++ String JS.dquote "")%string.
  rewrite (trim_end_last _ _ dquote_not_space).
  cbn [append JS.strip_quotes]. rewrite Ascii.eqb_refl. apply strip_last_quote_quote.
Qed.

Lemma trim_start_plain (v : string) : starts_plain v = true -> JS.trim_start v = v.
Proof.
  destruct v as [|c v]; [discriminate|]. cbn [starts_plain JS.trim_start]. unfold plain_char.
  intros [Hc _]%andb_true_iff. apply negb_true_iff in Hc. now rewrite Hc.
Qed.

Lemma trim_end_plain (v : string) : ends_plain v = true -> JS.trim_end v = v.
Proof.
  induction v as [|c v IH]; [discriminate|]. cbn [ends_plain JS.trim_end].
  destruct v as [|d v].
  - unfold plain_char. intros [Hc _]%andb_true_iff. apply negb_true_iff in Hc.
    cbn [JS.trim_end]. now rewrite Hc.
  - intros H. rewrite (IH H). reflexivity.
Qed.

Lemma strip_last_quote_plain (v : string) : ends_plain v = true -> JS.strip_last_quote v = v.
Proof.
  induction v as [|c v IH]; [discriminate|]. cbn [ends_plain JS.strip_last_quote].
  destruct v as [|d v].
  - unfold plain_char. intros [_ Hc]%andb_true_iff. apply negb_true_iff in Hc.
    now rewrite Hc.
  - intros H. now rewrite (IH H).
Qed.

(** X14: a CSV value that starts and ends with a character that is neither
    white space nor a double quote is loaded without the white space around
    it and is otherwise unchanged. *)
Theorem clean_plain_value (pad1 pad2 v : string) :
  all_white_space pad1 = true -> all_white_space pad2 = true ->
  starts_plain v = true -> ends_plain v = true ->
  clean (pad1 ++ v ++ pad2) = v.
Proof.
  intros H1 H2 Hs He. unfold clean, JS.trim.
  rewrite (trim_start_pad _ _ H1).
  assert (S : JS.trim_start (v ++ pad2) = (v ++ pad2)%string).
  { destruct v as [|c v]; [discriminate|]. cbn [append]. apply trim_start_plain. exact Hs. }
  rewrite S, (trim_end_pad _ _ H2), (trim_end_plain _ He).
  destruct v as [|c v]; [discriminate|]. cbn [JS.strip_quotes].
  cbn [starts_plain] in Hs. unfold plain_char in Hs.
  apply andb_true_iff in Hs as [_ Hq]. apply negb_true_iff in Hq. rewrite Hq.
  now apply strip_last_quote_plain.
Qed.

Lemma clean_blank (v : string) : all_white_space v = true -> clean v = "".
Proof.
  intros H. unfold clean, JS.trim.
  replace v with (v ++ "")%string by (clear H; induction v; cbn; congruence).
  now rewrite (trim_start_pad _ _ H).
Qed.

(** X15: an empty or blank CSV cell is loaded as 0 in the columns
    [carbon_saved] and [fueld_saved] and as NaN in the id columns, so a
    savings row with a blank [device_id] is returned by no query. *)
Theorem blank_cells (v : string) :
  all_white_space v = true ->
  transform_saved v = 0%float /\
  JS.parseInt (clean v) = nan /\
  (forall M : MomentLib, forall row savings dId start end_,
     row_device_id row = v ->
     ~ In (annotate (loadSaving row)) (filteredData savings dId start end_)).
Proof.
  intros H. unfold transform_saved. rewrite (clean_blank _ H).
  repeat split. intros M row savings dId start end_ E Hin.
  apply in_filteredData in Hin as (_ & _ & Hd & _).
  unfold of_device in Hd. cbn [annotate source loadSaving device_id] in Hd.
  rewrite E, (clean_blank _ H) in Hd.
  change (JS.parseInt "") with nan in Hd. rewrite eqb_nan_l in Hd. discriminate.
Qed.

End Cleaning.

(** ** The chart of the page *)


Section ChartFacts.
Context {B : MomentLib}.

Lemma existsb_eqb_in (m : string) (l : list string) :
  existsb (String.eqb m) l = true <-> In m l.
Proof.
  rewrite existsb_exists. split.
  - intros (x & Hx & E). apply String.eqb_eq in E. now subst.
  - intros H. exists m. split; [exact H | apply String.eqb_refl].
Qed.

Lemma set_add_in (m x : string) (l : list string) :
  In x (Chart.set_add m l) <-> x = m \/ In x l.
Proof.
  unfold Chart.set_add. destruct (existsb (String.eqb m) l) eqn:E.
  - apply existsb_eqb_in in E. split; [tauto | intros [-> | H]; assumption].
  - rewrite in_app_iff. cbn. intuition congruence.
Qed.

Lemma set_add_nodup (m : string) (l : list string) : NoDup l -> NoDup (Chart.set_add m l).
Proof.
  intros H. unfold Chart.set_add. destruct (existsb (String.eqb m) l) eqn:E; [exact H|].
  assert (N : ~ In m l) by (rewrite <- existsb_eqb_in; congruence).
  clear E. induction H as [|y l Hy Hl IH]; cbn.
  - constructor; [intros [] | constructor].
  - constructor.
    + rewrite in_app_iff. cbn. intros [H | [-> | []]]; [tauto | apply N; now left].
    + apply IH. intros H. apply N. now right.
Qed.

Lemma lookup_none_keys (m : string) (md : list (string * Chart.Bucket)) :
  Chart.lookup m md = None <-> existsb (String.eqb m) (map fst md) = false.
Proof.
  unfold Chart.lookup. induction md as [|[k b] md IH]; cbn [find map existsb fst];
    [tauto|].
  rewrite (String.eqb_sym m k). destruct (String.eqb k m); cbn [orb]; [|exact IH].
  split; discriminate.
Qed.

Lemma add_to_month_keys (m : string) (c f : JS.number) (md : list (string * Chart.Bucket)) :
  map fst (Chart.add_to_month m c f md) = Chart.set_add m (map fst md).
Proof.
  unfold Chart.add_to_month, Chart.set_add. cbv zeta. rewrite map_map.
  assert (K : forall l : list (string * Chart.Bucket),
            map (fun kv : string * Chart.Bucket =>
                   fst (if String.eqb (fst kv) m
                        then (fst kv,
                              {| Chart.carbon := (Chart.carbon (snd kv) + c)%float;
                                 Chart.fuel := (Chart.fuel (snd kv) + f)%float;
                                 Chart.count := (Chart.count (snd kv) + 1)%float |})
                        else kv)) l = map fst l).
  { intros l. apply map_ext. intros kv. now destruct (String.eqb (fst kv) m). }
  rewrite K. destruct (Chart.lookup m md) eqn:L.
  - destruct (existsb (String.eqb m) (map fst md)) eqn:E; [reflexivity|].
    apply lookup_none_keys in E. congruence.
  - apply lookup_none_keys in L. rewrite L. now rewrite map_app.
Qed.

(** While the loop runs, the keys of [monthlyData] are the members of
    [allMonths], in the same order, and no month is there twice. *)
Lemma grouped_invariant (data : list Chart.Item)
    (acc : list string * list (string * Chart.Bucket)) :
  map fst (snd acc) = fst acc -> NoDup (fst acc) ->
  map fst (snd (fold_left Chart.step data acc)) = fst (fold_left Chart.step data acc) /\
  NoDup (fst (fold_left Chart.step data acc)).
Proof.
  revert acc. induction data as [|item data IH]; intros acc K N; cbn [fold_left];
    [now split|].
  apply IH.
  - unfold Chart.step. destruct (negb _); [exact K|].
    destruct (Chart.item_timestamp item); [|exact K].
    cbn [fst snd]. now rewrite add_to_month_keys, K.
  - unfold Chart.step. destruct (negb _); [exact N|].
    destruct (Chart.item_timestamp item); [|exact N].
    cbn [fst]. now apply set_add_nodup.
Qed.

Lemma step_in (acc : list string * list (string * Chart.Bucket)) (item : Chart.Item)
    (month : string) :
  In month (fst (Chart.step acc item)) <-> In month (fst acc) \/ labelled item month.
Proof.
  unfold Chart.step, labelled.
  destruct (Chart.item_timestamp item) as [[|c ts]|]; cbn [JS.truthy_str negb].
  - split; [tauto | intros [H | (t & [= <-] & N & _)]; [exact H | congruence]].
  - cbn [fst]. rewrite set_add_in. split.
    + intros [-> | H]; [right | tauto]. exists (String c ts). repeat split. discriminate.
    + intros [H | (t & [= <-] & _ & E)]; [tauto | left; now symmetry].
  - split; [tauto | intros [H | (t & [=] & _)]; exact H].
Qed.

Lemma grouped_in (data : list Chart.Item) (acc : list string * list (string * Chart.Bucket))
    (month : string) :
  In month (fst (fold_left Chart.step data acc)) <->
  In month (fst acc) \/ exists item, In item data /\ labelled item month.
Proof.
  revert acc. induction data as [|item data IH]; intros acc; cbn [fold_left].
  - split; [tauto | intros [H | (i & [] & _)]; exact H].
  - rewrite IH, step_in. split.
    + intros [[H | H] | (i & Hi & L)]; [tauto | right; exists item; split; [now left | exact H]
                                        | right; exists i; split; [now right | exact L]].
    + intros [H | (i & [<- | Hi] & L)]; [tauto | tauto | right; eauto].
Qed.

Lemma insert_sorted_in (x y : string) (l : list string) :
  In y (Chart.insert_sorted x l) <-> y = x \/ In y l.
Proof.
  induction l as [|z l IH]; cbn [Chart.insert_sorted].
  - cbn. intuition congruence.
  - destruct (String.leb x z); cbn [In]; [intuition congruence|].
    rewrite IH. intuition congruence.
Qed.

Lemma sort_in (y : string) (l : list string) : In y (Chart.sort l) <-> In y l.
Proof.
  unfold Chart.sort. induction l as [|x l IH]; cbn [fold_right]; [tauto|].
  rewrite insert_sorted_in, IH. cbn. intuition congruence.
Qed.

Lemma leb_lt (x y : string) : String.leb x y = true -> x <> y -> String.ltb x y = true.
Proof.
  unfold String.leb, String.ltb. intros H N.
  destruct (String.compare x y) eqn:C; try reflexivity; try discriminate.
  apply String.compare_eq_iff in C. congruence.
Qed.

Lemma not_leb_lt (x y : string) : String.leb x y = false -> String.ltb y x = true.
Proof.
  unfold String.leb, String.ltb. rewrite (String.compare_antisym x y).
  destruct (String.compare y x); cbn; congruence.
Qed.

Lemma insert_sorted_increasing (x : string) (l : list string) :
  ~ In x l -> Sorted increasing l -> Sorted increasing (Chart.insert_sorted x l).
Proof.
  intros N S. induction S as [|z l S IH H]; cbn [Chart.insert_sorted].
  - repeat constructor.
  - destruct (String.leb x z) eqn:L.
    + constructor; [now constructor|]. constructor. apply leb_lt; [exact L|].
      intros ->. apply N. now left.
    + constructor; [apply IH; intros Hx; apply N; now right|].
      destruct l as [|w l]; cbn [Chart.insert_sorted].
      * constructor. now apply not_leb_lt.
      * inversion H; subst. destruct (String.leb x w); constructor;
          [now apply not_leb_lt | assumption].
Qed.

Lemma sort_increasing (l : list string) : NoDup l -> Sorted increasing (Chart.sort l).
Proof.
  unfold Chart.sort. induction 1 as [|x l N D IH]; cbn [fold_right]; [constructor|].
  apply insert_sorted_increasing; [|exact IH]. now rewrite (sort_in x l).
Qed.

Lemma x_axis_members (data : list Chart.Item) (month : string) :
  In month (Chart.xAxisData data) <-> exists item, In item data /\ labelled item month.
Proof.
  unfold Chart.xAxisData, Chart.grouped. rewrite sort_in, grouped_in. cbn [fst In]. tauto.
Qed.

(** X16: the labels of the x axis are in strictly ascending order, so none
    is there twice, and they are exactly the months of the received records
    that carry a timestamp. *)
Theorem x_axis_sorted_distinct (data : list Chart.Item) :
  Sorted increasing (Chart.xAxisData data) /\
  (forall month,
     In month (Chart.xAxisData data) <->
     exists item, In item data /\ labelled item month).
Proof.
  split; [|intros month; apply x_axis_members].
  unfold Chart.xAxisData, Chart.grouped.
  apply sort_increasing. apply (grouped_invariant data ([], [])); [reflexivity | constructor].
Qed.

(** X17: every label of the x axis has its bucket in [monthlyData], and
    every bucket its label: the two series read a bucket at each label and
    never find none. *)
Theorem every_label_has_bucket (data : list Chart.Item) (month : string) :
  In month (Chart.xAxisData data) <->
  exists bucket, Chart.lookup month (Chart.monthlyData data) = Some bucket.
Proof.
  unfold Chart.xAxisData, Chart.monthlyData, Chart.grouped. rewrite sort_in.
  destruct (grouped_invariant data ([], []) eq_refl (NoDup_nil _)) as [K _].
  rewrite <- K, <- existsb_eqb_in.
  destruct (Chart.lookup month _) as [b|] eqn:L.
  - split; [eauto|]. intros _.
    destruct (existsb _ _) eqn:E; [reflexivity|]. apply lookup_none_keys in E. congruence.
  - apply lookup_none_keys in L. rewrite L. split; [discriminate | intros (b & [=])].
Qed.

(** X18: the label of a received record with a timestamp: the month in
    Asia/Kolkata of its strict ISO-8601 parse, whatever the zone of the
    device or of the browser; else the month of the default parse in the
    browser's local time; and "Invalid date", a label of the x axis like
    any other, when neither parse reads the timestamp. *)
Theorem labels_of_records (data : list Chart.Item) (item : Chart.Item) (timestamp : string) :
  tz_zone "Asia/Kolkata" = true ->
  In item data -> Chart.item_timestamp item = Some timestamp -> timestamp <> "" ->
  match parse_iso_strict timestamp, parse_default timestamp with
  | Some t, _ => In (year_month (Zone "Asia/Kolkata") t) (Chart.xAxisData data)
  | None, Some t => In (year_month Local t) (Chart.xAxisData data)
  | None, None => In "Invalid date" (Chart.xAxisData data)
  end.
Proof.
  intros Z Hin Ht Hn.
  assert (L : In (Chart.month_label timestamp) (Chart.xAxisData data)).
  { apply x_axis_members. exists item. split; [exact Hin|].
    exists timestamp. now repeat split. }
  revert L. unfold Chart.month_label, Chart.tz, isValid, moment_iso_strict, moment_default,
    format_YYYY_MM. cbn [m_value]. rewrite Z.
  destruct (parse_iso_strict timestamp); cbn [m_value m_mode]; [tauto|].
  destruct (parse_default timestamp); tauto.
Qed.

End ChartFacts.

(** ** The preset ranges of the page *)

Section PresetFacts.
Variable LocalTZA : Z -> bool -> Z.
Variable offset : Z.
Hypothesis fixed_offset : forall t isUTC, LocalTZA t isUTC = offset.
Hypothesis within_a_day : - Presets.msPerDay < offset < Presets.msPerDay.

Lemma local_day_of_base :
  Presets.Day (Presets.baseDate + offset) = 19722 \/
  Presets.Day (Presets.baseDate + offset) = 19723 \/
  Presets.Day (Presets.baseDate + offset) = 19724.
Proof.
  unfold Presets.Day, Presets.baseDate, Presets.msPerDay in *.
  Z.div_mod_to_equations. lia.
Qed.

Lemma day_and_time (t : Z) :
  Presets.Day t * Presets.msPerDay + Presets.TimeWithinDay t = t.
Proof.
  unfold Presets.Day, Presets.TimeWithinDay, Presets.msPerDay.
  Z.div_mod_to_equations. lia.
Qed.

Lemma MakeDay_shift (y m d n : Z) :
  Presets.MakeDay y m (d - n) = Presets.MakeDay y m d - n.
Proof. unfold Presets.MakeDay. lia. Qed.

Ltac compute_MakeDay :=
  match goal with
  | |- context [Presets.MakeDay ?y ?m ?d] =>
      let v := eval vm_compute in (Presets.MakeDay y m d) in
      change (Presets.MakeDay y m d) with v
  end.

Lemma setDate_days_back (n : Z) :
  Presets.setDate LocalTZA Presets.baseDate (Presets.getDate LocalTZA Presets.baseDate - n) =
  Presets.baseDate - n * Presets.msPerDay.
Proof.
  unfold Presets.setDate, Presets.getDate, Presets.LocalTime, Presets.UTC. cbv zeta.
  rewrite !fixed_offset.
  pose proof (day_and_time (Presets.baseDate + offset)) as E.
  unfold Presets.YearFromTime, Presets.MonthFromTime, Presets.DateFromTime, Presets.MakeDate.
  rewrite MakeDay_shift.
  destruct local_day_of_base as [D | [D | D]]; rewrite D in *; compute_MakeDay; lia.
Qed.

Lemma setFullYear_year_back :
  Presets.setFullYear LocalTZA Presets.baseDate
    (Presets.getFullYear LocalTZA Presets.baseDate - 1) =
  Presets.baseDate - 365 * Presets.msPerDay.
Proof.
  unfold Presets.setFullYear, Presets.getFullYear, Presets.LocalTime, Presets.UTC. cbv zeta.
  rewrite !fixed_offset.
  pose proof (day_and_time (Presets.baseDate + offset)) as E.
  unfold Presets.YearFromTime, Presets.MonthFromTime, Presets.DateFromTime, Presets.MakeDate.
  destruct local_day_of_base as [D | [D | D]]; rewrite D in *; compute_MakeDay; lia.
Qed.

(** X19: in a browser whose local time is at a fixed offset from UTC,
    whatever the offset and whatever the day the page is used, a preset
    leaves [endDateTime] at 2024-01-01T18:29, the UTC reading of 23:59 at
    +05:30, and [startDateTime] exactly 30, 60 or 365 days before it; any
    other range name leaves [startDateTime] as it was. *)
Theorem preset_ranges (range startDateTime : string) :
  Presets.setDateRange LocalTZA range startDateTime =
  (if String.eqb range "last30" then "2023-12-02T18:29"
   else if String.eqb range "last60" then "2023-11-02T18:29"
   else if String.eqb range "lastYear" then "2023-01-01T18:29"
   else startDateTime,
   "2024-01-01T18:29").
Proof.
  unfold Presets.setDateRange. cbv zeta.
  rewrite !setDate_days_back, setFullYear_year_back.
  destruct (String.eqb range "last30"); [vm_compute; reflexivity|].
  destruct (String.eqb range "last60"); [vm_compute; reflexivity|].
  destruct (String.eqb range "lastYear"); vm_compute; reflexivity.
Qed.

End PresetFacts.

(** ** The further properties on the sample data *)

Section OnMoreSamples.
#[local] Existing Instance Sample.lib.

Lemma unknown_device_404_witness :
  "2" <> "" /\ "x" <> "" /\ "y" <> "" /\
  savings_handler (Sample.store Sample.june_rows) (request "2" "x" "y") =
  Sent 404 (VObj [("error", VStr "Device not found")]).
Proof.
  assert (A : "2" <> "") by discriminate.
  assert (B : "x" <> "") by discriminate.
  assert (C : "y" <> "") by discriminate.
  split; [exact A|]. split; [exact B|]. split; [exact C|].
  apply (proj2 (unknown_device_404 (Sample.store Sample.june_rows) "2" "x" "y" A B C)).
  intros d [<- | []]. vm_compute. reflexivity.
Defined.

Lemma invalid_range_400_witness :
  find_device (devices (Sample.store Sample.june_rows)) "1" = Some Sample.device /\
  parse_tz "not-a-date" (timezone Sample.device) = None /\
  savings_handler (Sample.store Sample.june_rows)
    (request "1" "not-a-date" "2023-06-30T23:59") =
  Sent 400 (VObj [("error", VStr "Invalid startDateTime or endDateTime format")]).
Proof.
  assert (F : find_device (devices (Sample.store Sample.june_rows)) "1" = Some Sample.device)
    by (vm_compute; reflexivity).
  assert (P : parse_tz "not-a-date" (timezone Sample.device) = None) by reflexivity.
  split; [exact F|]. split; [exact P|].
  apply (proj2 (invalid_range_400 (Sample.store Sample.june_rows) "1" "not-a-date"
                  "2023-06-30T23:59" Sample.device
                  ltac:(discriminate) ltac:(discriminate) ltac:(discriminate) F)).
  left. exact P.
Defined.

Lemma slash_query_valid :
  valid_query (Sample.store Sample.slash_rows) "1" "2023-06-01T00:00" "2023-06-30T23:59"
    Sample.device Sample.june_start Sample.june_end.
Proof. repeat split; try discriminate; vm_compute; reflexivity. Qed.

Lemma throws_iff_non_iso_in_range_witness :
  valid_query (Sample.store Sample.slash_rows) "1" "2023-06-01T00:00" "2023-06-30T23:59"
    Sample.device Sample.june_start Sample.june_end /\
  savings_handler (Sample.store Sample.slash_rows)
    (request "1" "2023-06-01T00:00" "2023-06-30T23:59") = Thrown const_assignment.
Proof.
  split; [exact slash_query_valid|].
  apply (proj2 (proj1 (throws_iff_non_iso_in_range _ _ _ _ _ _ _ slash_query_valid))).
  exists (annotate (loadSaving (Sample.saving "2023/06/15 10:00:00" "500" "10"))).
  split; [vm_compute; left; reflexivity | vm_compute; discriminate].
Defined.

Lemma first_matching_device_wins_witness :
  devices MoreSamples.twin_store =
    ([] ++ Sample.device :: skipn 1 (devices MoreSamples.twin_store))%list /\
  JS.strict_eq (id Sample.device) (JS.parseInt "1") = true /\
  find_device (devices MoreSamples.twin_store) "1" = Some Sample.device /\
  savings_handler MoreSamples.twin_store (request "1" "2023-06-01T00:00" "2023-06-30T23:59") =
  savings_handler (with_devices MoreSamples.twin_store [Sample.device])
    (request "1" "2023-06-01T00:00" "2023-06-30T23:59").
Proof.
  assert (E : devices MoreSamples.twin_store =
              ([] ++ Sample.device :: skipn 1 (devices MoreSamples.twin_store))%list)
    by (vm_compute; reflexivity).
  assert (S : JS.strict_eq (id Sample.device) (JS.parseInt "1") = true)
    by (vm_compute; reflexivity).
  split; [exact E|]. split; [exact S|].
  apply (first_matching_device_wins MoreSamples.twin_store [] Sample.device
           (skipn 1 (devices MoreSamples.twin_store)) "1" "2023-06-01T00:00"
           "2023-06-30T23:59" E); [intros d [] | exact S].
Defined.

Lemma mid_june_query_valid :
  valid_query (Sample.store Sample.june_rows) "1" "2023-06-10T00:00" "2023-06-20T00:00"
    Sample.device 1686335400000 1687199400000.
Proof. repeat split; try discriminate; vm_compute; reflexivity. Qed.

Lemma wider_range_returns_more_witness :
  valid_query (Sample.store Sample.june_rows) "1" "2023-06-10T00:00" "2023-06-20T00:00"
    Sample.device 1686335400000 1687199400000 /\
  valid_query (Sample.store Sample.june_rows) "1" "2023-06-01T00:00" "2023-06-30T23:59"
    Sample.device Sample.june_start Sample.june_end /\
  Sample.june_start <= 1686335400000 /\ 1687199400000 <= Sample.june_end /\
  savings_handler (Sample.store Sample.june_rows)
    (request "1" "2023-06-01T00:00" "2023-06-30T23:59") =
  Sent 200
    (json_ok [annotate (loadSaving Sample.june_row)]
       {| totalCarbon := 0.5%float; totalFuel := 10%float;
          monthlyCarbon := 0.5%float; monthlyFuel := 10%float;
          lastMonth := "2023-06" |}) /\
  exists totals,
    savings_handler (Sample.store Sample.june_rows)
      (request "1" "2023-06-10T00:00" "2023-06-20T00:00") =
    Sent 200 (json_ok [annotate (loadSaving Sample.june_row)] totals).
Proof.
  assert (A : Sample.june_start <= 1686335400000) by (vm_compute; discriminate).
  assert (B : 1687199400000 <= Sample.june_end) by (vm_compute; discriminate).
  assert (H : savings_handler (Sample.store Sample.june_rows)
                (request "1" "2023-06-01T00:00" "2023-06-30T23:59") =
              Sent 200
                (json_ok [annotate (loadSaving Sample.june_row)]
                   {| totalCarbon := 0.5%float; totalFuel := 10%float;
                      monthlyCarbon := 0.5%float; monthlyFuel := 10%float;
                      lastMonth := "2023-06" |}))
    by (vm_compute; reflexivity).
  split; [exact mid_june_query_valid|]. split; [exact june_query_valid|].
  split; [exact A|]. split; [exact B|]. split; [exact H|].
  destruct (wider_range_returns_more _ _ _ _ _ _ _ _ _ _ _ _
              mid_june_query_valid june_query_valid A B H) as (totals & _ & E & _ & _).
  exists totals. exact E.
Defined.

Lemma device_C_query_valid :
  valid_query MoreSamples.twin_store "2" "2023-06-01T00:00" "2023-06-30T23:59"
    MoreSamples.device_C 1685577600000 1688169540000.
Proof. repeat split; try discriminate; vm_compute; reflexivity. Qed.

Lemma device_without_records_witness :
  valid_query MoreSamples.twin_store "2" "2023-06-01T00:00" "2023-06-30T23:59"
    MoreSamples.device_C 1685577600000 1688169540000 /\
  savings_handler MoreSamples.twin_store (request "2" "2023-06-01T00:00" "2023-06-30T23:59") =
  Sent 200 (json_ok [] (zero_totals "2023-06")).
Proof.
  split; [exact device_C_query_valid|].
  etransitivity; [apply (device_without_records _ _ _ _ _ _ _ device_C_query_valid)|].
  - intros item [<- | []]. vm_compute. reflexivity.
  - vm_compute. reflexivity.
Defined.

Lemma non_numeric_device_id_never_returned_witness :
  JS.parseInt (clean (row_device_id MoreSamples.stray_row)) = nan /\
  ~ In (annotate (loadSaving MoreSamples.stray_row))
       (filteredData [loadSaving MoreSamples.stray_row] "abc"
          (moment_tz "2023-06-01T00:00" "Asia/Kolkata")
          (moment_tz "2023-06-30T23:59" "Asia/Kolkata")).
Proof.
  assert (N : JS.parseInt (clean (row_device_id MoreSamples.stray_row)) = nan)
    by reflexivity.
  split; [exact N|]. apply non_numeric_device_id_never_returned. exact N.
Defined.

Lemma june_returned_in_month (r : Returned) :
  In r (filteredData (savingsData (Sample.store Sample.june_rows)) "1"
          (moment_tz "2023-06-01T00:00" (timezone Sample.device))
          (moment_tz "2023-06-30T23:59" (timezone Sample.device))) ->
  strict_iso r /\
  server_local_month r = lastMonthStr "2023-06-30T23:59" (timezone Sample.device).
Proof.
  intros H. vm_compute in H. destruct H as [<- | []]. split; vm_compute; reflexivity.
Qed.

Lemma monthly_equals_total_within_month_witness :
  valid_query (Sample.store Sample.june_rows) "1" "2023-06-01T00:00" "2023-06-30T23:59"
    Sample.device Sample.june_start Sample.june_end /\
  (forall md t, month_start md t <= t) /\
  exists totals,
    savings_handler (Sample.store Sample.june_rows)
      (request "1" "2023-06-01T00:00" "2023-06-30T23:59") =
    Sent 200 (json_ok [annotate (loadSaving Sample.june_row)] totals) /\
    monthlyCarbon totals = totalCarbon totals /\ monthlyFuel totals = totalFuel totals.
Proof.
  split; [exact june_query_valid|]. split; [exact (lib_month_start_le 0)|].
  exact (monthly_equals_total_within_month _ _ _ _ _ _ _ june_query_valid
           (lib_month_start_le 0) june_returned_in_month).
Defined.

Lemma clean_quoted_value_witness :
  all_white_space " " = true /\ all_white_space "" = true /\
  clean (" " ++ quoted " Asia/Kolkata" ++ "") = " Asia/Kolkata".
Proof.
  assert (A : all_white_space " " = true) by reflexivity.
  assert (B : all_white_space "" = true) by reflexivity.
  split; [exact A|]. split; [exact B|]. exact (clean_quoted_value " " "" " Asia/Kolkata" A B).
Defined.

Lemma clean_plain_value_witness :
  all_white_space "  " = true /\ all_white_space " " = true /\
  starts_plain "Asia/Kolkata" = true /\ ends_plain "Asia/Kolkata" = true /\
  clean ("  " ++ "Asia/Kolkata" ++ " ") = "Asia/Kolkata".
Proof.
  assert (A : all_white_space "  " = true) by reflexivity.
  assert (B : all_white_space " " = true) by reflexivity.
  assert (C : starts_plain "Asia/Kolkata" = true) by reflexivity.
  assert (D : ends_plain "Asia/Kolkata" = true) by reflexivity.
  split; [exact A|]. split; [exact B|]. split; [exact C|]. split; [exact D|].
  exact (clean_plain_value "  " " " "Asia/Kolkata" A B C D).
Defined.

Lemma blank_cells_witness :
  all_white_space "  " = true /\ transform_saved "  " = 0%float /\
  JS.parseInt (clean "  ") = nan.
Proof.
  assert (A : all_white_space "  " = true) by reflexivity.
  split; [exact A|].
  destruct (blank_cells "  " A) as (T & P & _). split; [exact T | exact P].
Defined.

Lemma labels_of_records_witness :
  tz_zone "Asia/Kolkata" = true /\
  In "2023-07" (Chart.xAxisData MoreSamples.chart_items) /\
  In "Invalid date" (Chart.xAxisData MoreSamples.chart_items).
Proof.
  assert (Z : tz_zone "Asia/Kolkata" = true) by reflexivity.
  split; [exact Z|]. split.
  - exact (labels_of_records MoreSamples.chart_items _ "2023-06-30T20:00:00Z" Z
             (or_introl eq_refl) eq_refl ltac:(discriminate)).
  - exact (labels_of_records MoreSamples.chart_items _ "not-a-date" Z
             (or_intror (or_introl eq_refl)) eq_refl ltac:(discriminate)).
Defined.

Lemma preset_ranges_witness :
  (forall t isUTC, MoreSamples.kolkata_browser t isUTC = 19800000) /\
  - Presets.msPerDay < 19800000 < Presets.msPerDay /\
  Presets.setDateRange MoreSamples.kolkata_browser "last30" "2023-01-01T00:00" =
  ("2023-12-02T18:29", "2024-01-01T18:29").
Proof.
  assert (F : forall t isUTC, MoreSamples.kolkata_browser t isUTC = 19800000)
    by reflexivity.
  assert (W : - Presets.msPerDay < 19800000 < Presets.msPerDay)
    by (split; vm_compute; reflexivity).
  split; [exact F|]. split; [exact W|].
  exact (preset_ranges MoreSamples.kolkata_browser 19800000 F W "last30" "2023-01-01T00:00").
Defined.

(** The no-break space U+00A0 is white space for [trim], [parseInt] and
    [parseFloat]: a deviceId made of it and of [1] finds device 1, and a CSV
    value is loaded without it. *)
Example no_break_space_is_white_space :
  JS.parseInt (String "160" "1") = 1%float /\
  JS.parseFloat (String "160" "2.5") = 2.5%float /\
  clean (String "160" "Asia/Kolkata") = "Asia/Kolkata" /\
  find_device (devices (Sample.store Sample.june_rows)) (String "160" "1") =
  Some Sample.device.
Proof. repeat split; vm_compute; reflexivity. Qed.

End OnMoreSamples.
